(** * usbd_core.h: the USB device core and its hardware driver framework

    A shallow embedding of [inc/usbd_core.h].  Machine integers are [Z] with
    the conversions of C written out, pointers (to data and to functions) are
    machine addresses, the two callback tables are lists updated by index, and
    the hardware behind the driver call table is an abstract [World] that the
    driver's operations transform. *)

From Stdlib Require Import ZArith List Bool String Lia.
From stdpp Require Import base list.
Import ListNotations.
Local Open Scope Z_scope.

(** ** Integer types and conversions *)

Definition to_uint8 (z : Z) : Z := z mod 2 ^ 8.
Definition to_uint16 (z : Z) : Z := z mod 2 ^ 16.
(** [size_t] of the 32-bit targets of the library. *)
Definition to_size_t (z : Z) : Z := z mod 2 ^ 32.

Definition is_uint8 (z : Z) : Prop := 0 <= z < 2 ^ 8.
Definition is_uint16 (z : Z) : Prop := 0 <= z < 2 ^ 16.
Definition is_int32 (z : Z) : Prop := - 2 ^ 31 <= z < 2 ^ 31.

(** Conversion of an integer constant to [bool]. *)
Definition bool_of_int (z : Z) : bool := negb (z =? 0).

(** ** Preprocessor constants *)

Definition USB_EPTYPE_DBLBUF : Z := 0x04.

Definition USB_REQ_DIRECTION : Z := Z.shiftl 1 7.
Definition USB_REQ_HOSTTODEV : Z := Z.shiftl 0 7.
Definition USB_REQ_DEVTOHOST : Z := Z.shiftl 1 7.
Definition USB_REQ_TYPE : Z := Z.shiftl 3 5.
Definition USB_REQ_STANDARD : Z := Z.shiftl 0 5.
Definition USB_REQ_CLASS : Z := Z.shiftl 1 5.
Definition USB_REQ_VENDOR : Z := Z.shiftl 2 5.
Definition USB_REQ_RECIPIENT : Z := Z.shiftl 3 0.
Definition USB_REQ_DEVICE : Z := Z.shiftl 0 0.
Definition USB_REQ_INTERFACE : Z := Z.shiftl 1 0.
Definition USB_REQ_ENDPOINT : Z := Z.shiftl 2 0.
Definition USB_REQ_OTHER : Z := Z.shiftl 3 0.

Definition usbd_evt_reset : Z := 0.
Definition usbd_evt_sof : Z := 1.
Definition usbd_evt_susp : Z := 2.
Definition usbd_evt_wkup : Z := 3.
Definition usbd_evt_eptx : Z := 4.
Definition usbd_evt_eprx : Z := 5.
Definition usbd_evt_epsetup : Z := 6.
Definition usbd_evt_error : Z := 7.
Definition usbd_evt_esof : Z := 8.
Definition usbd_evt_count : Z := 9.

(** ** Enumerations (C enumerators are integer constants) *)

(** [enum usbd_machine_state] *)
Definition usbd_state_disabled : Z := 0.
Definition usbd_state_disconnected : Z := 1.
Definition usbd_state_default : Z := 2.
Definition usbd_state_addressed : Z := 3.
Definition usbd_state_configured : Z := 4.

(** [enum usbd_ctl_state] *)
Definition usbd_ctl_idle : Z := 0.
Definition usbd_ctl_rxdata : Z := 1.
Definition usbd_ctl_txdata : Z := 2.
Definition usbd_ctl_ztxdata : Z := 3.
Definition usbd_ctl_lastdata : Z := 4.
Definition usbd_ctl_statusin : Z := 5.
Definition usbd_ctl_statusout : Z := 6.

(** [enum usbd_commands] *)
Definition usbd_cmd_enable : Z := 0.
Definition usbd_cmd_disable : Z := 1.
Definition usbd_cmd_connect : Z := 2.
Definition usbd_cmd_disconnect : Z := 3.
Definition usbd_cmd_reset : Z := 4.

(** [usbd_respond] *)
Definition usbd_fail : Z := 0.
Definition usbd_ack : Z := 1.
Definition usbd_nak : Z := 2.

(** ** Structure layout

    The member declarations of a structure, and the offsets the C ABI gives
    them: every member is placed at the next multiple of its alignment. *)
Module Layout.

Inductive ctype :=
| uint8_t
| uint16_t
| uint32_t
| flexible (elt : ctype).      (* [elt name[]], a flexible array member *)

Definition sizeof (t : ctype) : Z :=
  match t with
  | uint8_t => 1
  | uint16_t => 2
  | uint32_t => 4
  | flexible _ => 0
  end.

(** Natural alignment (the AAPCS rule of the Cortex-M targets). *)
Fixpoint alignof (t : ctype) : Z :=
  match t with
  | uint8_t => 1
  | uint16_t => 2
  | uint32_t => 4
  | flexible elt => alignof elt
  end.

(** Every member aligned to one byte, as under [__attribute__((packed))]. *)
Definition alignof_packed (t : ctype) : Z := 1.

Definition align_up (off al : Z) : Z := (off + al - 1) / al * al.

Definition struct_decl := list (string * ctype).

Section WithAlignment.
Variable al : ctype -> Z.

Fixpoint place (off : Z) (members : struct_decl) : list (string * Z) :=
  match members with
  | [] => []
  | (name, t) :: rest =>
      let o := align_up off (al t) in
      (name, o) :: place (o + sizeof t) rest
  end.

Fixpoint find_member (name : string) (placed : list (string * Z)) : option Z :=
  match placed with
  | [] => None
  | (n, o) :: rest => if String.eqb n name then Some o else find_member name rest
  end.

Definition offsetof_with (s : struct_decl) (name : string) : option Z :=
  find_member name (place 0 s).
End WithAlignment.

(** [__builtin_offsetof(s, name)]; a member that does not exist is a compile
    error, rendered as offset 0. *)
Definition offsetof (s : struct_decl) (name : string) : Z :=
  match offsetof_with alignof s name with
  | Some o => o
  | None => 0
  end.

End Layout.

(** [struct _usbd_ctlreq] as declared. *)
Definition usbd_ctlreq_decl : Layout.struct_decl :=
  [ ("bmRequestType"%string, Layout.uint8_t);
    ("bRequest"%string, Layout.uint8_t);
    ("wValue"%string, Layout.uint16_t);
    ("wIndex"%string, Layout.uint16_t);
    ("wLength"%string, Layout.uint16_t);
    ("data"%string, Layout.flexible Layout.uint8_t) ].

(** ** Calls that leave the core

    Every call through the driver table is recorded, with its arguments, in
    the order in which it is made. *)
Inductive call :=
| hw_enable (enable : bool)
| hw_reset
| hw_connect (connect : bool)
| hw_setaddr (address : Z)
| hw_ep_config (ep eptype epsize : Z)
| hw_ep_deconfig (ep : Z)
| hw_ep_read (ep buf blen : Z)
| hw_ep_write (ep buf blen : Z)
| hw_ep_setstall (ep : Z) (stall : bool)
| hw_ep_isstalled (ep : Z)
| hw_poll
| hw_frame_no
| hw_get_serialno_desc (buffer : Z)
| cb_event (callback event ep : Z)
| cb_control (callback : Z)
| cb_config (callback cfg : Z)
| cb_descriptor (callback : Z)
| cb_complete (callback : Z).

(** Function pointers are code addresses; 0 is [NULL]. *)
Definition usbd_evt_callback := Z.
Definition usbd_rqc_callback := Z.
Definition usbd_ctl_callback := Z.
Definition usbd_dsc_callback := Z.
Definition usbd_cfg_callback := Z.
Definition NULL : Z := 0.

(** [struct _usbd_ctlreq]: the fixed members.  The payload [data] follows them
    in the buffer the request is a view of. *)
Record usbd_ctlreq := {
  bmRequestType : Z;
  bRequest : Z;
  wValue : Z;
  wIndex : Z;
  wLength : Z
}.

(** [struct _usbd_status] *)
Record usbd_status := {
  data_buf : Z;
  data_ptr : Z;
  data_count : Z;
  data_maxsize : Z;
  ep0size : Z;
  device_cfg : Z;
  device_state : Z;
  control_state : Z
}.

Section Core.

(** The hardware, and the memory the driver reads and writes. *)
Context {World : Type}.

(** [struct usbd_driver]: the hardware driver call table.  [poll] reports
    the events it finds, in order, as (event, endpoint) pairs: one call of
    the callback it is given per pair. *)
Record usbd_driver := {
  enable : bool -> World -> World;
  reset : World -> World;
  connect : bool -> World -> World;
  setaddr : Z -> World -> World;
  ep_config : Z -> Z -> Z -> World -> bool * World;
  ep_deconfig : Z -> World -> World;
  ep_read : Z -> Z -> Z -> World -> Z * World;
  ep_write : Z -> Z -> Z -> World -> Z * World;
  ep_setstall : Z -> bool -> World -> World;
  ep_isstalled : Z -> World -> bool * World;
  poll : World -> list (Z * Z) * World;
  frame_no : World -> Z * World;
  get_serialno_desc : Z -> World -> Z * World
}.

(** [struct _usbd_device].  [driver] is a pointer to a call table: [None]
    is the null pointer. *)
Record usbd_device := {
  driver : option usbd_driver;
  control_callback : usbd_ctl_callback;
  complete_callback : usbd_rqc_callback;
  config_callback : usbd_cfg_callback;
  descriptor_callback : usbd_dsc_callback;
  events : list usbd_evt_callback;
  endpoint : list usbd_evt_callback;
  status : usbd_status
}.

(** The array members have their declared number of elements. *)
Definition wf_device (dev : usbd_device) : Prop :=
  Z.of_nat (length (events dev)) = usbd_evt_count /\
  Z.of_nat (length (endpoint dev)) = 8.

(** [arr[i] = v]: a store outside the array is undefined behaviour,
    rendered as [None]. *)
Definition array_store {A : Type} (arr : list A) (i : Z) (v : A) : option (list A) :=
  if (0 <=? i) && (i <? Z.of_nat (length arr))
  then Some (<[Z.to_nat i := v]> arr)
  else None.

(** *** Functions that only assign fields of the device *)

Definition usbd_init (dev : usbd_device) (drv : option usbd_driver)
    (ep0size : Z) (buffer : Z) (bsize : Z) : usbd_device :=
  {| driver := drv;
     control_callback := control_callback dev;
     complete_callback := complete_callback dev;
     config_callback := config_callback dev;
     descriptor_callback := descriptor_callback dev;
     events := events dev;
     endpoint := endpoint dev;
     status :=
       {| data_buf := buffer;
          data_ptr := buffer;
          data_count := data_count (status dev);
          data_maxsize :=
            to_uint16 (to_size_t (bsize - Layout.offsetof usbd_ctlreq_decl "data"));
          ep0size := ep0size;
          device_cfg := device_cfg (status dev);
          device_state := device_state (status dev);
          control_state := control_state (status dev) |} |}.

Definition usbd_reg_control (dev : usbd_device) (callback : usbd_ctl_callback)
    : usbd_device :=
  {| driver := driver dev;
     control_callback := callback;
     complete_callback := complete_callback dev;
     config_callback := config_callback dev;
     descriptor_callback := descriptor_callback dev;
     events := events dev;
     endpoint := endpoint dev;
     status := status dev |}.

Definition usbd_reg_config (dev : usbd_device) (callback : usbd_cfg_callback)
    : usbd_device :=
  {| driver := driver dev;
     control_callback := control_callback dev;
     complete_callback := complete_callback dev;
     config_callback := callback;
     descriptor_callback := descriptor_callback dev;
     events := events dev;
     endpoint := endpoint dev;
     status := status dev |}.

Definition usbd_reg_descr (dev : usbd_device) (callback : usbd_dsc_callback)
    : usbd_device :=
  {| driver := driver dev;
     control_callback := control_callback dev;
     complete_callback := complete_callback dev;
     config_callback := config_callback dev;
     descriptor_callback := callback;
     events := events dev;
     endpoint := endpoint dev;
     status := status dev |}.

Definition set_endpoint (dev : usbd_device) (tbl : list usbd_evt_callback)
    : usbd_device :=
  {| driver := driver dev;
     control_callback := control_callback dev;
     complete_callback := complete_callback dev;
     config_callback := config_callback dev;
     descriptor_callback := descriptor_callback dev;
     events := events dev;
     endpoint := tbl;
     status := status dev |}.

Definition set_events (dev : usbd_device) (tbl : list usbd_evt_callback)
    : usbd_device :=
  {| driver := driver dev;
     control_callback := control_callback dev;
     complete_callback := complete_callback dev;
     config_callback := config_callback dev;
     descriptor_callback := descriptor_callback dev;
     events := tbl;
     endpoint := endpoint dev;
     status := status dev |}.

Definition usbd_reg_endpoint (dev : usbd_device) (ep : Z)
    (callback : usbd_evt_callback) : option usbd_device :=
  match array_store (endpoint dev) (Z.land ep 0x07) callback with
  | Some tbl => Some (set_endpoint dev tbl)
  | None => None
  end.

Definition usbd_reg_event (dev : usbd_device) (evt : Z)
    (callback : usbd_evt_callback) : option usbd_device :=
  match array_store (events dev) evt callback with
  | Some tbl => Some (set_events dev tbl)
  | None => None
  end.

(** *** Functions that call through the driver table

    A computation runs on a state, may fail (undefined behaviour: a call
    through a null table), and yields its result, the new state and the
    calls it made. *)
Definition M (S A : Type) : Type := S -> option (A * S * list call).

Definition ret {S A : Type} (a : A) : M S A := fun s => Some (a, s, []).

Definition bind {S A B : Type} (m : M S A) (k : A -> M S B) : M S B :=
  fun s =>
    match m s with
    | Some (a, s1, l1) =>
        match k a s1 with
        | Some (b, s2, l2) => Some (b, s2, l1 ++ l2)
        | None => None
        end
    | None => None
    end.

(** The device structure and the world around it. *)
Record system := {
  dev : usbd_device;
  world : World
}.

(** [dev->driver] *)
Definition the_driver : M system usbd_driver :=
  fun s =>
    match driver (dev s) with
    | Some drv => Some (drv, s, [])
    | None => None
    end.

(** A call of a driver operation: it acts on the world and is recorded. *)
Definition invoke {A : Type} (c : call) (op : World -> A * World) : M system A :=
  fun s =>
    let (a, w) := op (world s) in
    Some (a, {| dev := dev s; world := w |}, [c]).

Definition invoke_void (c : call) (op : World -> World) : M system unit :=
  invoke c (fun w => (tt, op w)).

End Core.

Arguments usbd_driver : clear implicits.
Arguments usbd_device : clear implicits.
Arguments system : clear implicits.

#[global] Instance M_ret {S : Type} : MRet (M S) := fun A a => ret a.
#[global] Instance M_bind {S : Type} : MBind (M S) := fun A B k m => bind m k.

Section Wrappers.

Context {World : Type}.

Definition usbd_ep_config (ep eptype epsize : Z) : M (system World) bool :=
  drv ← the_driver;
  invoke (hw_ep_config ep eptype epsize) (ep_config drv ep eptype epsize).

Definition usbd_ep_deconfig (ep : Z) : M (system World) unit :=
  drv ← the_driver;
  invoke_void (hw_ep_deconfig ep) (ep_deconfig drv ep).

(** The driver's [int32_t] result is returned as [uint16_t]. *)
Definition usbd_ep_write (ep buf blen : Z) : M (system World) Z :=
  drv ← the_driver;
  r ← invoke (hw_ep_write ep buf blen) (ep_write drv ep buf blen);
  mret (to_uint16 r).

Definition usbd_ep_read (ep buf blen : Z) : M (system World) Z :=
  drv ← the_driver;
  r ← invoke (hw_ep_read ep buf blen) (ep_read drv ep buf blen);
  mret (to_uint16 r).

Definition usbd_ep_stall (ep : Z) : M (system World) unit :=
  drv ← the_driver;
  invoke_void (hw_ep_setstall ep (bool_of_int 1)) (ep_setstall drv ep (bool_of_int 1)).

Definition usbd_ep_unstall (ep : Z) : M (system World) unit :=
  drv ← the_driver;
  invoke_void (hw_ep_setstall ep (bool_of_int 0)) (ep_setstall drv ep (bool_of_int 0)).

End Wrappers.

(** * The core behind [usbd_poll]

    The header declares [usbd_poll] and leaves its body to the core source.
    The definitions of this part follow the design document instead: the event
    dispatcher (section 4.2) and the control transfer state machine
    (section 4.3). *)

(** Modelled from the spec: the codes of the standard requests that section
    4.3 names; the header does not declare them.  The values are those of
    USB 2.0, table 9-4. *)
Definition USB_STD_GET_STATUS : Z := 0x00.
(** Modelled from the spec: standard request CLEAR_FEATURE (section 4.3),
    declared outside the header. *)
Definition USB_STD_CLEAR_FEATURE : Z := 0x01.
(** Modelled from the spec: standard request SET_FEATURE (section 4.3),
    declared outside the header. *)
Definition USB_STD_SET_FEATURE : Z := 0x03.
(** Modelled from the spec: standard request SET_ADDRESS (section 4.3),
    declared outside the header. *)
Definition USB_STD_SET_ADDRESS : Z := 0x05.
(** Modelled from the spec: standard request GET_DESCRIPTOR (section 4.3),
    declared outside the header. *)
Definition USB_STD_GET_DESCRIPTOR : Z := 0x06.
(** Modelled from the spec: standard request GET_CONFIGURATION (section 4.3),
    declared outside the header. *)
Definition USB_STD_GET_CONFIG : Z := 0x08.
(** Modelled from the spec: standard request SET_CONFIGURATION (section 4.3),
    declared outside the header. *)
Definition USB_STD_SET_CONFIG : Z := 0x09.
(** Modelled from the spec: the endpoint type of a control endpoint, declared
    outside the header (USB 2.0, table 9-13). *)
Definition USB_EPTYPE_CONTROL : Z := 0x00.
(** Modelled from the spec: the address of endpoint 0 in the OUT direction. *)
Definition EP0_OUT : Z := 0x00.
(** Modelled from the spec: the address of endpoint 0 in the IN direction. *)
Definition EP0_IN : Z := 0x80.

(** Modelled from the spec: what a control-request callback hands back
    (section 6): its verdict, the transfer-complete callback it registers,
    and, through the device it is given, the cursor and length of the
    response. *)
Record ctl_reply := {
  reply_respond : Z;
  reply_complete : usbd_rqc_callback;
  reply_ptr : Z;
  reply_count : Z
}.

Section ControlMachine.

Context {World : Type}.

(** Modelled from the spec: the collaborators of the core that are code of
    the application (section 6): what the function behind each callback
    pointer does, and how the memory of the world is read as a control
    request and written with reply bytes. *)
Record environment := {
  ctlreq_at : World -> Z -> usbd_ctlreq;
  poke : Z -> list Z -> World -> World;
  evt_callback : usbd_evt_callback -> Z -> Z -> World -> World;
  ctl_callback : usbd_ctl_callback -> usbd_status -> usbd_ctlreq -> World -> ctl_reply * World;
  dsc_callback : usbd_dsc_callback -> usbd_ctlreq -> Z -> Z -> World -> (Z * Z * Z) * World;
  cfg_callback : usbd_cfg_callback -> Z -> World -> Z * World;
  rqc_callback : usbd_rqc_callback -> usbd_ctlreq -> World -> World
}.

(** Modelled from the spec: the state of the core (section 3 and the design
    note on deferred state mutation): the device in its world, the request of
    the active control transfer, the address a SET_ADDRESS request left
    pending, and whether the request waits to be presented again after a
    [nak]. *)
Record core := {
  sys : system World;
  request : usbd_ctlreq;
  pending_address : option Z;
  busy : bool
}.

Variable env : environment.

(** *** Access to the state *)

(** Modelled from the spec: [dev->status] of the core's device. *)
Definition st (c : core) : usbd_status := status (dev (sys c)).

(** Modelled from the spec: the core's device. *)
Definition device (c : core) : usbd_device World := dev (sys c).

(** Modelled from the spec: assignment to the device of the core. *)
Definition set_device (d : usbd_device World) (c : core) : core :=
  {| sys := {| dev := d; world := world (sys c) |};
     request := request c;
     pending_address := pending_address c;
     busy := busy c |}.

(** Modelled from the spec: assignment to [dev->status]. *)
Definition set_status (s : usbd_status) (c : core) : core :=
  set_device
    {| driver := driver (device c);
       control_callback := control_callback (device c);
       complete_callback := complete_callback (device c);
       config_callback := config_callback (device c);
       descriptor_callback := descriptor_callback (device c);
       events := events (device c);
       endpoint := endpoint (device c);
       status := s |} c.

(** Modelled from the spec: assignment to [dev->complete_callback]. *)
Definition set_complete_callback (cb : usbd_rqc_callback) (c : core) : core :=
  set_device
    {| driver := driver (device c);
       control_callback := control_callback (device c);
       complete_callback := cb;
       config_callback := config_callback (device c);
       descriptor_callback := descriptor_callback (device c);
       events := events (device c);
       endpoint := endpoint (device c);
       status := status (device c) |} c.

(** Modelled from the spec: assignment to the control sub-state. *)
Definition set_control_state (v : Z) (c : core) : core :=
  set_status
    {| data_buf := data_buf (st c); data_ptr := data_ptr (st c);
       data_count := data_count (st c); data_maxsize := data_maxsize (st c);
       ep0size := ep0size (st c); device_cfg := device_cfg (st c);
       device_state := device_state (st c); control_state := v |} c.

(** Modelled from the spec: assignment to the data cursor and the count of
    remaining bytes. *)
Definition set_cursor (ptr count : Z) (c : core) : core :=
  set_status
    {| data_buf := data_buf (st c); data_ptr := ptr;
       data_count := count; data_maxsize := data_maxsize (st c);
       ep0size := ep0size (st c); device_cfg := device_cfg (st c);
       device_state := device_state (st c); control_state := control_state (st c) |} c.

(** Modelled from the spec: assignment to the machine state and the
    configuration number. *)
Definition set_machine (state cfg : Z) (c : core) : core :=
  set_status
    {| data_buf := data_buf (st c); data_ptr := data_ptr (st c);
       data_count := data_count (st c); data_maxsize := data_maxsize (st c);
       ep0size := ep0size (st c); device_cfg := cfg;
       device_state := state; control_state := control_state (st c) |} c.

(** Modelled from the spec: the request of the active transfer is replaced. *)
Definition set_request (r : usbd_ctlreq) (c : core) : core :=
  {| sys := sys c; request := r; pending_address := pending_address c; busy := busy c |}.

(** Modelled from the spec: the pending-address field is assigned. *)
Definition set_pending (a : option Z) (c : core) : core :=
  {| sys := sys c; request := request c; pending_address := a; busy := busy c |}.

(** Modelled from the spec: the request is marked as waiting, or not, for
    another presentation. *)
Definition set_busy (b : bool) (c : core) : core :=
  {| sys := sys c; request := request c; pending_address := pending_address c; busy := b |}.

(** Modelled from the spec: reading the state. *)
Definition get : M core core := fun c => Some (c, c, []).

(** Modelled from the spec: a state update. *)
Definition modify (f : core -> core) : M core unit := fun c => Some (tt, f c, []).

(** Modelled from the spec: a computation on the device in its world, run
    inside the core. *)
Definition lift {A : Type} (m : M (system World) A) : M core A :=
  fun c =>
    match m (sys c) with
    | Some (a, s, l) =>
        Some (a, {| sys := s; request := request c;
                    pending_address := pending_address c; busy := busy c |}, l)
    | None => None
    end.

(** Modelled from the spec: a call of a function of the application. *)
Definition call_out {A : Type} (cl : call) (f : World -> A * World) : M core A :=
  lift (invoke cl f).

(** Modelled from the spec: a call of a function of the application that
    returns nothing. *)
Definition call_out_void (cl : call) (f : World -> World) : M core unit :=
  lift (invoke_void cl f).

(** Modelled from the spec: the core writes reply bytes to memory. *)
Definition store (addr : Z) (bytes : list Z) : M core unit :=
  fun c =>
    Some (tt, {| sys := {| dev := dev (sys c);
                           world := poke env addr bytes (world (sys c)) |};
                 request := request c;
                 pending_address := pending_address c;
                 busy := busy c |}, []).

(** *** Driver operations the core uses (section 4.1) *)

(** Modelled from the spec: [read_endpoint]. *)
Definition hw_read (ep buf blen : Z) : M core Z :=
  lift (drv ← the_driver; invoke (hw_ep_read ep buf blen) (ep_read drv ep buf blen)).

(** Modelled from the spec: [write_endpoint]. *)
Definition hw_write (ep buf blen : Z) : M core Z :=
  lift (drv ← the_driver; invoke (hw_ep_write ep buf blen) (ep_write drv ep buf blen)).

(** Modelled from the spec: [set_stall]. *)
Definition hw_stall (ep : Z) (stall : bool) : M core unit :=
  lift (drv ← the_driver; invoke_void (hw_ep_setstall ep stall) (ep_setstall drv ep stall)).

(** Modelled from the spec: [is_stalled]. *)
Definition hw_stalled (ep : Z) : M core bool :=
  lift (drv ← the_driver; invoke (hw_ep_isstalled ep) (ep_isstalled drv ep)).

(** Modelled from the spec: [set_address]. *)
Definition hw_set_address (a : Z) : M core unit :=
  lift (drv ← the_driver; invoke_void (hw_setaddr a) (setaddr drv a)).

(** Modelled from the spec: [configure_endpoint]. *)
Definition hw_configure (ep eptype epsize : Z) : M core bool :=
  lift (drv ← the_driver;
        invoke (hw_ep_config ep eptype epsize) (ep_config drv ep eptype epsize)).

(** Modelled from the spec: the driver's [poll], which reports the events
    it finds. *)
Definition hw_events : M core (list (Z * Z)) :=
  lift (drv ← the_driver; invoke hw_poll (poll drv)).

(** *** The control transfer state machine (section 4.3) *)

(** Modelled from the spec: the direction bit of the request type is set
    (device-to-host). *)
Definition dev_to_host (r : usbd_ctlreq) : bool :=
  negb (Z.land (bmRequestType r) USB_REQ_DIRECTION =? 0).

(** Modelled from the spec: the active transfer is dropped: the control
    sub-state is idle, no transfer-complete callback is registered, no address
    is pending and no request waits (4.3: a new SETUP pre-empts, no transfer
    is left half-applied). *)
Definition abort_transfer (c : core) : core :=
  set_busy false
    (set_pending None
       (set_complete_callback NULL (set_control_state usbd_ctl_idle c))).

(** Modelled from the spec: a transfer fails (4.3, edge cases): endpoint 0 is
    stalled and the state machine is forced back to idle. *)
Definition stall_pid : M core unit :=
  hw_stall EP0_OUT true ;;
  modify abort_transfer.

(** Modelled from the spec: completion of the STATUS stage (4.3, item 5): a
    registered transfer-complete callback is called once and its registration
    cleared; then a pending address is applied with the driver's
    [set_address], and the machine state follows it. *)
Definition complete_transfer : M core unit :=
  c ← get;
  (if complete_callback (device c) =? NULL then mret tt
   else
     call_out_void (cb_complete (complete_callback (device c)))
       (rqc_callback env (complete_callback (device c)) (request c)) ;;
     modify (set_complete_callback NULL)) ;;
  match pending_address c with
  | Some a =>
      hw_set_address a ;;
      modify (fun c =>
        set_pending None
          (set_machine (if a =? 0 then usbd_state_default else usbd_state_addressed)
             (device_cfg (st c)) c))
  | None => mret tt
  end.

(** Modelled from the spec: the user control callback, first in the chain
    (4.3, item 2).  An unset slot does not handle the request.  When the
    callback accepts, the transfer-complete callback and the response it
    designates are recorded. *)
Definition user_request : M core Z :=
  c ← get;
  if control_callback (device c) =? NULL then mret usbd_fail
  else
    r ← call_out (cb_control (control_callback (device c)))
          (ctl_callback env (control_callback (device c)) (st c) (request c));
    if reply_respond r =? usbd_ack then
      modify (fun c =>
        set_cursor (reply_ptr r) (to_uint16 (reply_count r))
          (set_complete_callback (reply_complete r) c)) ;;
      mret usbd_ack
    else mret (reply_respond r).

(** Modelled from the spec: the built-in handling of standard requests
    (4.3, item 2): GET_CONFIGURATION, SET_CONFIGURATION through the
    configuration callback, GET_DESCRIPTOR through the descriptor callback,
    GET_STATUS, SET_FEATURE and CLEAR_FEATURE for an endpoint recipient, and
    SET_ADDRESS, which only stores the pending address. *)
Definition std_request : M core Z :=
  c ← get;
  let req := request c in
  if negb (Z.land (bmRequestType req) USB_REQ_TYPE =? USB_REQ_STANDARD) then mret usbd_fail
  else if bRequest req =? USB_STD_GET_CONFIG then
    store (data_ptr (st c)) [device_cfg (st c)] ;;
    modify (set_cursor (data_ptr (st c)) 1) ;;
    mret usbd_ack
  else if bRequest req =? USB_STD_SET_CONFIG then
    if config_callback (device c) =? NULL then mret usbd_fail
    else
      r ← call_out (cb_config (config_callback (device c)) (to_uint8 (wValue req)))
            (cfg_callback env (config_callback (device c)) (to_uint8 (wValue req)));
      if r =? usbd_ack then
        modify (fun c =>
          set_machine
            (if to_uint8 (wValue req) =? 0 then usbd_state_addressed
             else usbd_state_configured)
            (to_uint8 (wValue req)) c) ;;
        mret usbd_ack
      else mret usbd_fail
  else if bRequest req =? USB_STD_GET_DESCRIPTOR then
    if descriptor_callback (device c) =? NULL then mret usbd_fail
    else
      r ← call_out (cb_descriptor (descriptor_callback (device c)))
            (dsc_callback env (descriptor_callback (device c)) req
               (data_ptr (st c)) (data_count (st c)));
      if fst (fst r) =? usbd_ack then
        modify (set_cursor (snd (fst r)) (to_uint16 (snd r))) ;;
        mret usbd_ack
      else mret usbd_fail
  else if bRequest req =? USB_STD_GET_STATUS then
    stalled ←
      (if Z.land (bmRequestType req) USB_REQ_RECIPIENT =? USB_REQ_ENDPOINT
       then hw_stalled (to_uint8 (wIndex req))
       else mret false);
    store (data_ptr (st c)) [if stalled : bool then 1 else 0; 0] ;;
    modify (set_cursor (data_ptr (st c)) 2) ;;
    mret usbd_ack
  else if (bRequest req =? USB_STD_SET_FEATURE) || (bRequest req =? USB_STD_CLEAR_FEATURE) then
    if Z.land (bmRequestType req) USB_REQ_RECIPIENT =? USB_REQ_ENDPOINT then
      hw_stall (to_uint8 (wIndex req)) (bRequest req =? USB_STD_SET_FEATURE) ;;
      mret usbd_ack
    else mret usbd_fail
  else if bRequest req =? USB_STD_SET_ADDRESS then
    modify (set_pending (Some (to_uint8 (wValue req)))) ;;
    mret usbd_ack
  else mret usbd_fail.

(** Modelled from the spec: the control-callback chain (4.3, item 2): the
    user callback first, and the built-in handling when it does not handle
    the request. *)
Definition process_request : M core Z :=
  r ← user_request;
  if r =? usbd_fail then std_request else mret r.

(** Modelled from the spec: one packet of the DATA-IN stage (4.3, item 4):
    the next packet, of at most the control endpoint's packet size, is
    written from the cursor, and the driver's result is checked (4.1, failure
    policy): a result other than the length of the packet, -1 or a length
    mismatch, fails the transfer.  Without a pending zero-length packet the
    stage has queued its last packet when nothing remains; with one, when the
    zero-length packet itself has been written. *)
Definition tx_packet : M core unit :=
  c ← get;
  let n := Z.min (data_count (st c)) (ep0size (st c)) in
  r ← hw_write EP0_IN (data_ptr (st c)) n;
  if negb (r =? n) then stall_pid
  else
    modify (fun c =>
      set_control_state
        (if control_state (st c) =? usbd_ctl_ztxdata
         then (if n =? 0 then usbd_ctl_lastdata else usbd_ctl_ztxdata)
         else (if data_count (st c) - n =? 0 then usbd_ctl_lastdata else usbd_ctl_txdata))
        (set_cursor (data_ptr (st c) + n) (data_count (st c) - n) c)).

(** Modelled from the spec: entry into the DATA-IN stage (4.3, items 1 and
    4): a response whose length is an exact multiple of the packet size and
    less than [wLength] needs one extra zero-length packet
    ([usbd_ctl_ztxdata]); otherwise at most [wLength] bytes are sent and the
    last short packet suffices.  The first packet is queued at once; the TX
    events that follow queue the others. *)
Definition begin_tx : M core unit :=
  c ← get;
  (if (data_count (st c) <? wLength (request c))
      && (data_count (st c) mod ep0size (st c) =? 0)
   then modify (set_control_state usbd_ctl_ztxdata)
   else
     modify (fun c =>
       set_control_state usbd_ctl_txdata
         (set_cursor (data_ptr (st c))
            (Z.min (data_count (st c)) (wLength (request c))) c))) ;;
  tx_packet.

(** Modelled from the spec: a request is presented to the chain and its
    verdict applied (4.3, items 1 to 3), with the cursor on the payload of
    the request: accepted with a response to send,
    the DATA-IN stage begins; accepted otherwise, a zero-length IN packet is
    written and, the driver having written it (4.1, failure policy), the
    STATUS-IN stage begins; [nak] leaves the request waiting for the next
    poll; anything else, a failed write included, fails the transfer. *)
Definition handle_request : M core unit :=
  modify (fun c =>
    set_busy false (set_cursor (data_buf (st c) + 8) (data_maxsize (st c)) c)) ;;
  r ← process_request;
  c ← get;
  if r =? usbd_ack then
    if dev_to_host (request c) && negb (wLength (request c) =? 0) then begin_tx
    else
      n ← hw_write EP0_IN 0 0;
      if n =? 0 then modify (set_control_state usbd_ctl_statusin)
      else stall_pid
  else if r =? usbd_nak then modify (set_busy true)
  else stall_pid.

(** Modelled from the spec: a SETUP packet (4.3, item 1): whatever transfer
    was active is dropped, the 8-byte header is read and parsed; a request
    with host-to-device data arms the buffer for [min(wLength, capacity)]
    bytes, or stalls when [wLength] exceeds the capacity; every other request
    goes to the chain at once. *)
Definition process_setup : M core unit :=
  modify abort_transfer ;;
  c ← get;
  n ← hw_read EP0_OUT (data_buf (st c)) 8;
  if negb (n =? 8) then stall_pid
  else
    c ← get;
    let req := ctlreq_at env (world (sys c)) (data_buf (st c)) in
    modify (set_request req) ;;
    if (wLength req =? 0) || dev_to_host req then handle_request
    else if data_maxsize (st c) <? wLength req then stall_pid
    else
      modify (fun c =>
        set_control_state usbd_ctl_rxdata
          (set_cursor (data_buf (st c) + 8)
             (Z.min (wLength req) (data_maxsize (st c))) c)).

(** Modelled from the spec: a received packet on endpoint 0 (4.3, items 3
    and 5): in the DATA-OUT stage it is read at the cursor and counted, and
    the request goes to the chain once the expected length is there; in the
    STATUS-OUT stage the zero-length packet of the host is read and completes
    the transfer, while a failed read or a packet with data fails it (4.1,
    failure policy); in any other state it is a protocol violation. *)
Definition process_eprx : M core unit :=
  c ← get;
  if control_state (st c) =? usbd_ctl_rxdata then
    n ← hw_read EP0_OUT (data_ptr (st c)) (data_count (st c));
    if (n <? 0) || (data_count (st c) <? n) then stall_pid
    else if n <? data_count (st c) then
      modify (set_cursor (data_ptr (st c) + n) (data_count (st c) - n))
    else handle_request
  else if control_state (st c) =? usbd_ctl_statusout then
    n ← hw_read EP0_OUT 0 0;
    if n =? 0 then
      modify (set_control_state usbd_ctl_idle) ;;
      complete_transfer
    else stall_pid
  else stall_pid.

(** Modelled from the spec: a transmitted packet on endpoint 0 (4.3, items 4
    and 5): in the DATA-IN stage the next packet is queued; after the last
    one the machine awaits the host's acknowledgement in STATUS-OUT; in the
    STATUS-IN stage it completes the transfer; in any other state it is a
    protocol violation. *)
Definition process_eptx : M core unit :=
  c ← get;
  if (control_state (st c) =? usbd_ctl_txdata) || (control_state (st c) =? usbd_ctl_ztxdata)
  then tx_packet
  else if control_state (st c) =? usbd_ctl_lastdata then
    modify (set_control_state usbd_ctl_statusout)
  else if control_state (st c) =? usbd_ctl_statusin then
    modify (set_control_state usbd_ctl_idle) ;;
    complete_transfer
  else stall_pid.

(** *** The event dispatcher (section 4.2) *)

(** Modelled from the spec: a bus reset re-synchronizes the status: default
    machine state, no configuration, idle control state, and endpoint 0
    configured with its packet size; when the driver cannot configure the
    endpoint the core falls back to stalling it (4.1, failure policy). *)
Definition process_reset : M core unit :=
  modify (fun c => set_machine usbd_state_default 0 (abort_transfer c)) ;;
  c ← get;
  ok ← hw_configure EP0_OUT USB_EPTYPE_CONTROL (ep0size (st c));
  if ok : bool then mret tt else stall_pid.

(** Modelled from the spec: the callback registered in a table slot is
    called; an unset slot, or none, ignores the event. *)
Definition notify (slot : option usbd_evt_callback) (evt ep : Z) : M core unit :=
  match slot with
  | Some cb =>
      if cb =? NULL then mret tt
      else call_out_void (cb_event cb evt ep) (evt_callback env cb evt ep)
  | None => mret tt
  end.

(** Modelled from the spec: the internal callback the dispatcher gives to
    the driver's [poll], called once per event: endpoint events of endpoint 0
    go to the state machine and those of another endpoint to the callback of
    its index; device events go to their event callback, a reset first
    re-synchronizing the status. *)
Definition dispatch (evt ep : Z) : M core unit :=
  if (evt =? usbd_evt_eptx) || (evt =? usbd_evt_eprx) || (evt =? usbd_evt_epsetup) then
    if Z.land ep 0x07 =? 0 then
      if evt =? usbd_evt_epsetup then process_setup
      else if evt =? usbd_evt_eprx then process_eprx
      else process_eptx
    else
      c ← get;
      notify (endpoint (device c) !! Z.to_nat (Z.land ep 0x07)) evt ep
  else if (0 <=? evt) && (evt <? usbd_evt_count) then
    (if evt =? usbd_evt_reset then process_reset else mret tt) ;;
    c ← get;
    notify (events (device c) !! Z.to_nat evt) evt ep
  else mret tt.

(** Modelled from the spec: what the core reacts to: an event reported by
    the driver, or the start of a poll, at which a request that met [nak] is
    presented again (4.3, edge cases). *)
Inductive stimulus :=
| Retry
| Event (evt ep : Z).

(** Modelled from the spec: the reaction to one stimulus. *)
Definition react (s : stimulus) : M core unit :=
  match s with
  | Retry =>
      c ← get;
      if busy c then handle_request else mret tt
  | Event evt ep => dispatch evt ep
  end.

(** Modelled from the spec: the reactions to a sequence of stimuli, in
    order. *)
Fixpoint react_all (ss : list stimulus) : M core unit :=
  match ss with
  | [] => mret tt
  | s :: rest => react s ;; react_all rest
  end.

(** Modelled from the spec: [usbd_poll] (section 4.2): a waiting request is
    presented again, the driver is polled, and each event it reports is
    dispatched in the order of arrival. *)
Definition usbd_poll : M core unit :=
  react Retry ;;
  evts ← hw_events;
  react_all (map (fun e => Event (fst e) (snd e)) evts).

(** Modelled from the spec: a moment of a run: the state the core is in, the
    stimulus it reacts to, the calls it makes and the state it reaches. *)
Record moment := {
  before : core;
  cause : stimulus;
  calls : list call;
  after : core
}.

(** Modelled from the spec: the moments of the reactions to a sequence of
    stimuli. *)
Fixpoint moments (ss : list stimulus) (c : core) : option (list moment) :=
  match ss with
  | [] => Some []
  | s :: rest =>
      match react s c with
      | Some (_, c1, l) =>
          match moments rest c1 with
          | Some ms => Some ({| before := c; cause := s; calls := l; after := c1 |} :: ms)
          | None => None
          end
      | None => None
      end
  end.

(** Modelled from the spec: the moments of one [usbd_poll]. *)
Definition poll_moments (c : core) : option (list moment) :=
  match react Retry c with
  | Some (_, c1, l) =>
      match hw_events c1 with
      | Some (evts, c2, _) =>
          match moments (map (fun e => Event (fst e) (snd e)) evts) c2 with
          | Some ms => Some ({| before := c; cause := Retry; calls := l; after := c1 |} :: ms)
          | None => None
          end
      | None => None
      end
  | None => None
  end.

(** Modelled from the spec: TX events of endpoint 0 are fed to the core
    until it enters the STATUS-OUT stage. *)
Fixpoint tx_until_statusout (fuel : nat) : M core unit :=
  match fuel with
  | O => mret tt
  | S fuel' =>
      c ← get;
      if control_state (st c) =? usbd_ctl_statusout then mret tt
      else react (Event usbd_evt_eptx EP0_IN) ;; tx_until_statusout fuel'
  end.

(** Modelled from the spec: the number of zero-length packets among the
    writes to endpoint 0 in a sequence of calls. *)
Fixpoint zlp_count (l : list call) : nat :=
  match l with
  | [] => O
  | hw_ep_write ep _ blen :: rest =>
      if (Z.land ep 0x07 =? 0) && (blen =? 0) then S (zlp_count rest) else zlp_count rest
  | _ :: rest => zlp_count rest
  end.

(** Modelled from the spec: the number of bytes handed to the driver for
    endpoint 0 in a sequence of calls.  A packet that the driver does not
    take in full aborts the transfer ([tx_packet]), so in a run that reaches
    the STATUS-OUT stage these are the bytes the driver has taken. *)
Fixpoint bytes_written (l : list call) : Z :=
  match l with
  | [] => 0
  | hw_ep_write ep _ blen :: rest =>
      if Z.land ep 0x07 =? 0 then blen + bytes_written rest else bytes_written rest
  | _ :: rest => bytes_written rest
  end.

(** Modelled from the spec: whether a call is the driver's [set_address]. *)
Definition is_setaddr (cl : call) : bool :=
  match cl with
  | hw_setaddr _ => true
  | _ => false
  end.

(** *** Relations between states of the core, used to state its properties *)

(** A call leaves everything but the world as it was. *)
Definition frame (c c' : core) : Prop :=
  device c' = device c /\ request c' = request c /\
  pending_address c' = pending_address c /\ busy c' = busy c.

(** The active transfer is untouched: its request, the pending address, the
    waiting flag and the control sub-state. *)
Definition same_transfer (c c' : core) : Prop :=
  request c' = request c /\ pending_address c' = pending_address c /\
  busy c' = busy c /\ control_state (st c') = control_state (st c).

(** No call of the driver's [set_address] among the calls. *)
Definition quiet (l : list call) : Prop := forall a, ~ In (hw_setaddr a) l.

(** The request is the standard request SET_ADDRESS for the address [a]. *)
Definition is_set_address (r : usbd_ctlreq) (a : Z) : Prop :=
  Z.land (bmRequestType r) USB_REQ_TYPE = USB_REQ_STANDARD /\
  bRequest r = USB_STD_SET_ADDRESS /\
  to_uint8 (wValue r) = a.

(** The control sub-states of a transfer whose request has been accepted. *)
Definition accepted_state (v : Z) : Prop :=
  v = usbd_ctl_txdata \/ v = usbd_ctl_ztxdata \/ v = usbd_ctl_lastdata \/
  v = usbd_ctl_statusin \/ v = usbd_ctl_statusout.

(** An address is pending only for the accepted SET_ADDRESS request of the
    active transfer. *)
Definition pending_inv (c : core) : Prop :=
  forall a, pending_address c = Some a ->
    busy c = false /\ accepted_state (control_state (st c)) /\
    is_set_address (request c) a.

(** The stimulus is the event that completes the STATUS stage of the active
    transfer: the TX event of endpoint 0 in the STATUS-IN stage, or the RX
    event of endpoint 0 in the STATUS-OUT stage. *)
Definition completes_status (c : core) (s : stimulus) : Prop :=
  match s with
  | Retry => False
  | Event evt ep =>
      Z.land ep 0x07 = 0 /\
      ((evt = usbd_evt_eptx /\ control_state (st c) = usbd_ctl_statusin) \/
       (evt = usbd_evt_eprx /\ control_state (st c) = usbd_ctl_statusout))
  end.

(** In a moment, [set_address] is called only to complete the STATUS stage
    of a SET_ADDRESS transfer: the moment is caused by the event that
    completes the stage, the address is the one the request of the active
    transfer asked for, the call is the last of the moment and the only one,
    and the transfer is over afterwards.  A moment caused by the event that
    completes the STATUS stage of such a transfer does make the call, unless
    it is the STATUS-OUT stage and the acknowledgement of the host could not
    be read: then endpoint 0 is stalled and the address dropped. *)
Definition deferred_setaddr (m : moment) : Prop :=
  (forall a, In (hw_setaddr a) (calls m) ->
     completes_status (before m) (cause m) /\
     pending_address (before m) = Some a /\
     is_set_address (request (before m)) a /\
     (exists pre, calls m = pre ++ [hw_setaddr a] /\ quiet pre) /\
     control_state (st (after m)) = usbd_ctl_idle /\
     pending_address (after m) = None) /\
  (forall a, completes_status (before m) (cause m) ->
     pending_address (before m) = Some a ->
     In (hw_setaddr a) (calls m) \/
     (control_state (st (before m)) = usbd_ctl_statusout /\
      In (hw_ep_setstall EP0_OUT true) (calls m) /\
      pending_address (after m) = None)).

(** The driver writes every packet of endpoint 0 in full: its result is the
    length it was asked to write. *)
Definition writes_in_full (drv : usbd_driver World) : Prop :=
  forall buf n w, fst (ep_write drv EP0_IN buf n w) = n.

(** In a moment, the request of the active transfer stays the same unless
    the moment is caused by a SETUP packet on endpoint 0. *)
Definition request_kept (m : moment) : Prop :=
  request (after m) = request (before m) \/
  exists ep, cause m = Event usbd_evt_epsetup ep /\ Z.land ep 0x07 = 0.

End ControlMachine.

Arguments environment : clear implicits.
Arguments core : clear implicits.
Arguments moment : clear implicits.

(** ** Concrete inputs

    A driver over a world that counts the calls made to the hardware (its
    [poll] reports the events a script gives for the count), a
    zero-initialised device structure, and an application, on which the
    functions above can be evaluated. *)
Definition counting_driver (read_result write_result : Z) (config_ok : bool)
    (script : nat -> list (Z * Z)) : usbd_driver nat :=
  {| enable := fun _ w => S w;
     reset := fun w => S w;
     connect := fun _ w => S w;
     setaddr := fun _ w => S w;
     ep_config := fun _ _ _ w => (config_ok, S w);
     ep_deconfig := fun _ w => S w;
     ep_read := fun _ _ _ w => (read_result, S w);
     ep_write := fun _ _ _ w => (write_result, S w);
     ep_setstall := fun _ _ w => S w;
     ep_isstalled := fun _ w => (false, S w);
     poll := fun w => (script w, S w);
     frame_no := fun w => (0, S w);
     get_serialno_desc := fun _ w => (0, S w) |}.

Definition zero_status : usbd_status :=
  {| data_buf := 0; data_ptr := 0; data_count := 0; data_maxsize := 0;
     ep0size := 0; device_cfg := 0; device_state := 0; control_state := 0 |}.

Definition zero_device : usbd_device nat :=
  {| driver := None;
     control_callback := NULL;
     complete_callback := NULL;
     config_callback := NULL;
     descriptor_callback := NULL;
     events := replicate 9 NULL;
     endpoint := replicate 8 NULL;
     status := zero_status |}.

Definition no_events : nat -> list (Z * Z) := fun _ => [].

(** An application in which the memory always holds the request [req], the
    control callback answers [reply], there are no descriptors and every
    configuration is accepted. *)
Definition fixed_application (req : usbd_ctlreq) (reply : ctl_reply) : environment nat :=
  {| ctlreq_at := fun _ _ => req;
     poke := fun _ _ w => w;
     evt_callback := fun _ _ _ w => w;
     ctl_callback := fun _ _ _ w => (reply, w);
     dsc_callback := fun _ _ p n w => ((usbd_fail, p, n), w);
     cfg_callback := fun _ _ w => (usbd_ack, w);
     rqc_callback := fun _ _ w => w |}.

(** The core of a device initialised with [usbd_init] for 64-byte packets and
    a 136-byte buffer at 0x20000000, idle, in a world where no call has been
    made. *)
Definition fresh_core (drv : usbd_driver nat) (ctl : usbd_ctl_callback) : core nat :=
  {| sys := {| dev := usbd_reg_control
                        (usbd_init zero_device (Some drv) 64 0x20000000 136) ctl;
               world := 0%nat |};
     request := {| bmRequestType := 0; bRequest := 0; wValue := 0; wIndex := 0; wLength := 0 |};
     pending_address := None;
     busy := false |}.

(** SET_ADDRESS 5: a standard request to the device, with no data stage. *)
Definition set_address_5 : usbd_ctlreq :=
  {| bmRequestType := 0x00; bRequest := USB_STD_SET_ADDRESS; wValue := 5;
     wIndex := 0; wLength := 0 |}.

(** A vendor request that reads up to 255 bytes from the device. *)
Definition vendor_read_255 : usbd_ctlreq :=
  {| bmRequestType := 0xC0; bRequest := 0x01; wValue := 0; wIndex := 0; wLength := 255 |}.

(** The control callback does not handle the request. *)
Definition declines : ctl_reply :=
  {| reply_respond := usbd_fail; reply_complete := NULL; reply_ptr := 0; reply_count := 0 |}.

(** The control callback accepts and answers with [n] bytes at 0x20001000. *)
Definition answers (n : Z) : ctl_reply :=
  {| reply_respond := usbd_ack; reply_complete := NULL; reply_ptr := 0x20001000;
     reply_count := n |}.

(** The driver first reports a SETUP packet on endpoint 0, and a completed
    transmission on endpoint 0 at every later poll. *)
Definition setup_then_tx (w : nat) : list (Z * Z) :=
  match w with
  | O => [(usbd_evt_epsetup, EP0_OUT)]
  | S _ => [(usbd_evt_eptx, EP0_IN)]
  end.

(** A driver that transfers every packet in full (reads and writes return the
    length asked for) and counts the calls made to it. *)
Definition scripted_driver : usbd_driver nat :=
  {| enable := fun _ w => S w;
     reset := fun w => S w;
     connect := fun _ w => S w;
     setaddr := fun _ w => S w;
     ep_config := fun _ _ _ w => (true, S w);
     ep_deconfig := fun _ w => S w;
     ep_read := fun _ _ blen w => (blen, S w);
     ep_write := fun _ _ blen w => (blen, S w);
     ep_setstall := fun _ _ w => S w;
     ep_isstalled := fun _ w => (false, S w);
     poll := fun w => (setup_then_tx w, S w);
     frame_no := fun w => (0, S w);
     get_serialno_desc := fun _ w => (0, S w) |}.

(** The same driver, except that every write fails with -1. *)
Definition failing_writes_driver : usbd_driver nat :=
  {| enable := fun _ w => S w;
     reset := fun w => S w;
     connect := fun _ w => S w;
     setaddr := fun _ w => S w;
     ep_config := fun _ _ _ w => (true, S w);
     ep_deconfig := fun _ w => S w;
     ep_read := fun _ _ blen w => (blen, S w);
     ep_write := fun _ _ _ w => (-1, S w);
     ep_setstall := fun _ _ w => S w;
     ep_isstalled := fun _ w => (false, S w);
     poll := fun w => (setup_then_tx w, S w);
     frame_no := fun w => (0, S w);
     get_serialno_desc := fun _ w => (0, S w) |}.

(** The core after the poll that processes the SETUP packet of
    SET_ADDRESS 5, which no control callback handles. *)
Definition awaiting_status : core nat :=
  Eval vm_compute in
  match usbd_poll (fixed_application set_address_5 declines)
          (fresh_core scripted_driver NULL) with
  | Some (_, c, _) => c
  | None => fresh_core scripted_driver NULL
  end.

(** The core after the next poll, which completes the STATUS stage. *)
Definition addressed : core nat :=
  Eval vm_compute in
  match usbd_poll (fixed_application set_address_5 declines) awaiting_status with
  | Some (_, c, _) => c
  | None => awaiting_status
  end.

(** The core that has read the SETUP packet of a vendor request to read up
    to 255 bytes, about to present it to the chain. *)
Definition vendor_read_core : core nat :=
  Eval vm_compute in
  set_request vendor_read_255 (fresh_core scripted_driver 0x08000400).

(** The same core once the control callback has accepted with a 128-byte
    response. *)
Definition vendor_read_accepted : core nat :=
  Eval vm_compute in
  match process_request (fixed_application vendor_read_255 (answers 128))
          (set_busy false
             (set_cursor (data_buf (st vendor_read_core) + 8)
                (data_maxsize (st vendor_read_core)) vendor_read_core)) with
  | Some (_, c, _) => c
  | None => vendor_read_core
  end.

(** A whole DATA-IN transfer: the poll that processes the SETUP packet of the
    vendor read, answered with [n] bytes, and TX events until the STATUS-OUT
    stage; the result is the control sub-state reached and the calls made. *)
Definition vendor_read_run (n : Z) : option (Z * list call) :=
  match usbd_poll (fixed_application vendor_read_255 (answers n))
          (fresh_core scripted_driver 0x08000400) with
  | Some (_, c, l1) =>
      match tx_until_statusout (fixed_application vendor_read_255 (answers n)) 16 c with
      | Some (_, c', l2) => Some (control_state (st c'), l1 ++ l2)
      | None => None
      end
  | None => None
  end.

(** Two polls in a row: the pending address and the control sub-state after
    the first, the control sub-state after the second, and the calls each
    one made. *)
Definition two_polls (env : environment nat) (c : core nat)
    : option (option Z * Z * list call * Z * list call) :=
  match usbd_poll env c with
  | Some (_, c1, l1) =>
      match usbd_poll env c1 with
      | Some (_, c2, l2) =>
          Some (pending_address c1, control_state (st c1), l1, control_state (st c2), l2)
      | None => None
      end
  | None => None
  end.

(** The event codes the header defines, in the order of their definition. *)
Definition usbd_events : list Z :=
  [usbd_evt_reset; usbd_evt_sof; usbd_evt_susp; usbd_evt_wkup; usbd_evt_eptx;
   usbd_evt_eprx; usbd_evt_epsetup; usbd_evt_error; usbd_evt_esof].

(** The check that a request type byte splits into its fields: the direction
    is one of the two directions, the type one of the three named types or
    the unnamed fourth value of the mask, the recipient one of the four
    recipients, and the byte is the sum of the three fields and of its bits
    2 to 4, which no mask covers. *)
Definition request_type_splits (b : Z) : bool :=
  ((Z.land b USB_REQ_DIRECTION =? USB_REQ_HOSTTODEV)
   || (Z.land b USB_REQ_DIRECTION =? USB_REQ_DEVTOHOST))
  && ((Z.land b USB_REQ_TYPE =? USB_REQ_STANDARD)
      || (Z.land b USB_REQ_TYPE =? USB_REQ_CLASS)
      || (Z.land b USB_REQ_TYPE =? USB_REQ_VENDOR)
      || (Z.land b USB_REQ_TYPE =? USB_REQ_TYPE))
  && ((Z.land b USB_REQ_RECIPIENT =? USB_REQ_DEVICE)
      || (Z.land b USB_REQ_RECIPIENT =? USB_REQ_INTERFACE)
      || (Z.land b USB_REQ_RECIPIENT =? USB_REQ_ENDPOINT)
      || (Z.land b USB_REQ_RECIPIENT =? USB_REQ_OTHER))
  && (b =? Z.land b USB_REQ_DIRECTION + Z.land b USB_REQ_TYPE
           + Z.land b USB_REQ_RECIPIENT + Z.land b 0x1C).

(** * Properties of the header *)

Lemma to_uint16_size_t (z : Z) : to_uint16 (to_size_t z) = to_uint16 z.
Proof.
  unfold to_uint16, to_size_t.
  apply Z.mod_mod_divide. exists (2 ^ 16). reflexivity.
Qed.

Lemma offsetof_ctlreq_data : Layout.offsetof usbd_ctlreq_decl "data" = 8.
Proof. reflexivity. Qed.

Section HeaderProperties.

Context {World : Type}.
Implicit Types (dev : usbd_device World) (drv : usbd_driver World) (w : World).

Lemma array_store_in_range {A : Type} (arr : list A) (i : Z) (v : A) :
  0 <= i < Z.of_nat (length arr) ->
  array_store arr i v = Some (<[Z.to_nat i := v]> arr).
Proof.
  intros [Hlo Hhi]. unfold array_store.
  apply Z.leb_le in Hlo. apply Z.ltb_lt in Hhi.
  now rewrite Hlo, Hhi.
Qed.

Lemma array_store_is_Some {A : Type} (arr : list A) (i : Z) (v : A) :
  is_Some (array_store arr i v) <-> 0 <= i < Z.of_nat (length arr).
Proof.
  unfold array_store.
  destruct (0 <=? i) eqn:Hlo; destruct (i <? Z.of_nat (length arr)) eqn:Hhi; simpl;
    rewrite ?Z.leb_le, ?Z.leb_gt, ?Z.ltb_lt, ?Z.ltb_ge in *;
    split; intros H; try lia; try (eexists; reflexivity);
    destruct H as [x Hx]; discriminate.
Qed.

Lemma land_7_mod (ep : Z) : Z.land ep 0x07 = ep mod 8.
Proof. change 0x07 with (Z.ones 3). rewrite Z.land_ones by lia. reflexivity. Qed.

Lemma land_7_range (ep : Z) : 0 <= Z.land ep 0x07 < 8.
Proof. rewrite land_7_mod. apply Z.mod_pos_bound. lia. Qed.

Lemma land_7_direction (ep : Z) : Z.land (Z.lxor ep 0x80) 0x07 = Z.land ep 0x07.
Proof.
  apply Z.bits_inj'. intros n Hn.
  rewrite !Z.land_spec, Z.lxor_spec.
  destruct (Z.testbit 0x07 n) eqn:Hbit; [| now rewrite !andb_false_r].
  change 0x07 with (Z.ones 3) in Hbit. apply (proj1 (Z.ones_spec_iff 3 n ltac:(lia))) in Hbit.
  change 0x80 with (2 ^ 7). rewrite Z.pow2_bits_false by lia.
  now rewrite xorb_false_r.
Qed.

Lemma usbd_ep_read_converts dev drv w ep buf blen r w' :
  driver dev = Some drv ->
  ep_read drv ep buf blen w = (r, w') ->
  usbd_ep_read ep buf blen {| dev := dev; world := w |}
  = Some (to_uint16 r, {| dev := dev; world := w' |}, [hw_ep_read ep buf blen]).
Proof.
  intros Hd Hr.
  unfold usbd_ep_read, mbind, M_bind, bind, the_driver, invoke, mret, M_ret, ret.
  simpl. rewrite Hd. simpl. rewrite Hr. reflexivity.
Qed.

End HeaderProperties.

(** C1, as amended: the capacity stored by [usbd_init] is [bsize - 8] reduced
    to 16 bits, where 8 is the offset of [data] in [usbd_ctlreq]; it is
    [bsize - 8] itself whenever the buffer holds the header ([8 <= bsize]);
    [data_buf] and [data_ptr] are the supplied buffer. *)
Theorem usbd_init_capacity {World : Type} (dev : usbd_device World)
    (drv : option (usbd_driver World)) (ep0 buffer bsize : Z) :
  is_uint16 bsize ->
  Layout.offsetof usbd_ctlreq_decl "data" = 8 /\
  data_maxsize (status (usbd_init dev drv ep0 buffer bsize)) = (bsize - 8) mod 2 ^ 16 /\
  (8 <= bsize -> data_maxsize (status (usbd_init dev drv ep0 buffer bsize)) = bsize - 8) /\
  (bsize < 8 -> data_maxsize (status (usbd_init dev drv ep0 buffer bsize)) = bsize + 65528) /\
  data_buf (status (usbd_init dev drv ep0 buffer bsize)) = buffer /\
  data_ptr (status (usbd_init dev drv ep0 buffer bsize)) = buffer.
Proof.
  intros [Hlo Hhi]. simpl.
  rewrite to_uint16_size_t, offsetof_ctlreq_data. unfold to_uint16.
  change (2 ^ 16) with 65536 in *.
  repeat split.
  - intros H8. apply Z.mod_small. lia.
  - intros H8. replace (bsize - 8) with (bsize + 65528 + (-1) * 65536) by lia.
    rewrite Z.mod_add by lia. apply Z.mod_small. lia.
Qed.

Lemma usbd_init_capacity_witness :
  is_uint16 136 /\
  data_maxsize (status (usbd_init zero_device None 64 0x20000000 136)) = 128.
Proof.
  split; [unfold is_uint16; lia |].
  apply (usbd_init_capacity zero_device None 64 0x20000000 136); [unfold is_uint16 |]; lia.
Defined.

(** C1 as stated fails when the buffer is shorter than the header: a 4-byte
    buffer gives capacity 65532, not 4 - 8. *)
Lemma usbd_init_capacity_short_buffer :
  is_uint16 4 /\
  data_maxsize (status (usbd_init zero_device None 64 0x20000000 4)) = 65532 /\
  data_maxsize (status (usbd_init zero_device None 64 0x20000000 4)) <> 4 - 8.
Proof. split; [unfold is_uint16; lia |]. split; [reflexivity | discriminate]. Qed.

(** C2: [usbd_ep_read] at a driver whose [ep_read] reports an error with -1:
    the caller receives 65535, the conversion of -1 to the [uint16_t] return
    type, and not -1. *)
Theorem usbd_ep_read_error_converted :
  let d := usbd_init zero_device (Some (counting_driver (-1) 0 true no_events)) 64 0x20000000 136 in
  ep_read (counting_driver (-1) 0 true no_events) 0x01 0x20000100 64 0%nat = (-1, 1%nat) /\
  usbd_ep_read 0x01 0x20000100 64 {| dev := d; world := 0%nat |}
  = Some (65535, {| dev := d; world := 1%nat |}, [hw_ep_read 0x01 0x20000100 64]) /\
  65535 <> -1.
Proof. split; [reflexivity |]. split; [reflexivity | discriminate]. Qed.

(** C3: [usbd_reg_endpoint] stores the callback at index [ep mod 8] of the
    endpoint table of the device and nowhere else: in the device it leaves,
    that slot holds the callback and every other slot and field is as before;
    the addresses [ep] and [ep xor 0x80] select the same slot (0x01 and 0x81
    both select slot 1), and the index is always below 8. *)
Theorem usbd_reg_endpoint_slot {World : Type} (dev : usbd_device World) (ep : Z)
    (cb : usbd_evt_callback) :
  wf_device dev -> is_uint8 ep ->
  exists dev',
    usbd_reg_endpoint dev ep cb = Some dev' /\
    dev' = set_endpoint dev (<[Z.to_nat (ep mod 8) := cb]> (endpoint dev)) /\
    endpoint dev' !! Z.to_nat (ep mod 8) = Some cb /\
    (forall j : nat, j <> Z.to_nat (ep mod 8) -> endpoint dev' !! j = endpoint dev !! j) /\
    (events dev' = events dev /\ driver dev' = driver dev /\ status dev' = status dev /\
     control_callback dev' = control_callback dev /\
     complete_callback dev' = complete_callback dev /\
     config_callback dev' = config_callback dev /\
     descriptor_callback dev' = descriptor_callback dev) /\
    usbd_reg_endpoint dev (Z.lxor ep 0x80) cb = Some dev' /\
    usbd_reg_endpoint dev 0x81 cb = usbd_reg_endpoint dev 0x01 cb /\
    (forall d1, usbd_reg_endpoint dev 0x01 cb = Some d1 -> endpoint d1 !! 1%nat = Some cb) /\
    0 <= ep mod 8 < 8.
Proof.
  intros [_ Hlen] _.
  assert (Hr : 0 <= ep mod 8 < 8) by (apply Z.mod_pos_bound; lia).
  assert (Hreg : usbd_reg_endpoint dev ep cb
                 = Some (set_endpoint dev (<[Z.to_nat (ep mod 8) := cb]> (endpoint dev)))).
  { unfold usbd_reg_endpoint. rewrite land_7_mod.
    rewrite array_store_in_range by lia. reflexivity. }
  eexists. split; [exact Hreg |]. split; [reflexivity |]. simpl.
  split; [apply list_lookup_insert_eq; lia |].
  split; [intros j Hj; apply list_lookup_insert_ne; congruence |].
  split; [repeat split |].
  split; [unfold usbd_reg_endpoint in *; rewrite land_7_direction; exact Hreg |].
  split; [reflexivity |].
  split; [| exact Hr].
  intros d1 H1. unfold usbd_reg_endpoint in H1.
  change (Z.land 1 7) with 1 in H1. rewrite array_store_in_range in H1 by lia.
  inversion H1; subst d1. simpl. apply list_lookup_insert_eq. lia.
Qed.

Lemma usbd_reg_endpoint_slot_witness :
  wf_device zero_device /\ is_uint8 0x82 /\
  exists dev',
    usbd_reg_endpoint zero_device 0x82 0x08000400 = Some dev' /\
    endpoint dev' = [NULL; NULL; 0x08000400; NULL; NULL; NULL; NULL; NULL] /\
    endpoint dev' !! 2%nat = Some 0x08000400.
Proof.
  assert (Hwf : wf_device zero_device) by (split; reflexivity).
  assert (Hu : is_uint8 0x82) by (unfold is_uint8; lia).
  split; [exact Hwf |]. split; [exact Hu |].
  destruct (usbd_reg_endpoint_slot zero_device 0x82 0x08000400 Hwf Hu)
    as (dev' & Hreg & Heq & Hslot & _).
  exists dev'. split; [exact Hreg |]. split; [rewrite Heq; reflexivity | exact Hslot].
Defined.

(** The offsets of the members of [usbd_ctlreq] do not depend on whether the
    structure is packed: no member needs padding. *)
Lemma usbd_ctlreq_packed_same :
  Layout.place Layout.alignof_packed 0 usbd_ctlreq_decl
  = Layout.place Layout.alignof 0 usbd_ctlreq_decl.
Proof. reflexivity. Qed.

(** C4: the [bmRequestType] masks are 0x80 (bit 7), 0x60 (bits 6 and 5) and
    0x03 (bits 1 and 0); in [usbd_ctlreq] the one-byte [bmRequestType] is at
    offset 0, the one-byte [bRequest] at 1, the two-byte [wValue], [wIndex]
    and [wLength] at 2, 4 and 6, and the payload [data] at offset 8, whether
    the members are naturally aligned or packed. *)
Theorem usbd_ctlreq_wire_layout :
  (USB_REQ_DIRECTION = 0x80 /\ forall i, Z.testbit USB_REQ_DIRECTION i = (i =? 7)) /\
  (USB_REQ_TYPE = 0x60 /\ forall i, Z.testbit USB_REQ_TYPE i = (i =? 6) || (i =? 5)) /\
  (USB_REQ_RECIPIENT = 0x03 /\
   forall i, Z.testbit USB_REQ_RECIPIENT i = (i =? 1) || (i =? 0)) /\
  Layout.place Layout.alignof 0 usbd_ctlreq_decl
  = [ ("bmRequestType"%string, 0); ("bRequest"%string, 1); ("wValue"%string, 2);
      ("wIndex"%string, 4); ("wLength"%string, 6); ("data"%string, 8) ] /\
  Layout.place Layout.alignof_packed 0 usbd_ctlreq_decl
  = Layout.place Layout.alignof 0 usbd_ctlreq_decl /\
  map (fun m => Layout.sizeof (snd m)) usbd_ctlreq_decl = [1; 1; 2; 2; 2; 0] /\
  Layout.offsetof usbd_ctlreq_decl "bmRequestType" = 0 /\
  Layout.offsetof usbd_ctlreq_decl "bRequest" = 1 /\
  Layout.offsetof usbd_ctlreq_decl "wValue" = 2 /\
  Layout.offsetof usbd_ctlreq_decl "wIndex" = 4 /\
  Layout.offsetof usbd_ctlreq_decl "wLength" = 6 /\
  Layout.offsetof usbd_ctlreq_decl "data" = 8.
Proof.
  repeat split.
  - intros i. change USB_REQ_DIRECTION with (2 ^ 7).
    rewrite Z.pow2_bits_eqb by lia. apply Z.eqb_sym.
  - intros i. change USB_REQ_TYPE with (Z.lor (2 ^ 6) (2 ^ 5)).
    rewrite Z.lor_spec, !Z.pow2_bits_eqb by lia.
    now rewrite (Z.eqb_sym 6 i), (Z.eqb_sym 5 i).
  - intros i. change USB_REQ_RECIPIENT with (Z.lor (2 ^ 1) (2 ^ 0)).
    rewrite Z.lor_spec, !Z.pow2_bits_eqb by lia.
    now rewrite (Z.eqb_sym 1 i), (Z.eqb_sym 0 i).
Qed.

(** C5: [usbd_ep_config] makes one call of the driver's [ep_config], with the
    endpoint, type and size it was given, and returns the driver's answer,
    [false] included, without a second attempt. *)
Theorem usbd_ep_config_forwards {World : Type} (d : usbd_device World)
    (drv : usbd_driver World) (w w' : World) (ep eptype epsize : Z) (b : bool) :
  driver d = Some drv ->
  ep_config drv ep eptype epsize w = (b, w') ->
  usbd_ep_config ep eptype epsize {| dev := d; world := w |}
  = Some (b, {| dev := d; world := w' |}, [hw_ep_config ep eptype epsize]).
Proof.
  intros Hd Hc.
  unfold usbd_ep_config, mbind, M_bind, bind, the_driver, invoke. simpl.
  rewrite Hd. simpl. rewrite Hc. reflexivity.
Qed.

Lemma usbd_ep_config_forwards_witness :
  let d := usbd_init zero_device (Some (counting_driver 0 0 false no_events)) 64 0x20000000 136 in
  driver d = Some (counting_driver 0 0 false no_events) /\
  ep_config (counting_driver 0 0 false no_events) 0x81 2 64 0%nat = (false, 1%nat) /\
  usbd_ep_config 0x81 2 64 {| dev := d; world := 0%nat |}
  = Some (false, {| dev := d; world := 1%nat |}, [hw_ep_config 0x81 2 64]).
Proof.
  intros d. split; [reflexivity |]. split; [reflexivity |].
  apply (usbd_ep_config_forwards d (counting_driver 0 0 false no_events) 0%nat 1%nat 0x81 2 64 false);
    reflexivity.
Defined.

(** C8: [usbd_init] sets [driver], [ep0size], [data_ptr], [data_buf] and
    [data_maxsize] (from its arguments alone) and leaves every other field of
    the device as it was. *)
Theorem usbd_init_frame {World : Type} (d : usbd_device World)
    (drv : option (usbd_driver World)) (ep0 buffer bsize : Z) :
  let d' := usbd_init d drv ep0 buffer bsize in
  (driver d' = drv /\
   ep0size (status d') = ep0 /\
   data_ptr (status d') = buffer /\
   data_buf (status d') = buffer /\
   data_maxsize (status d') = to_uint16 (bsize - 8)) /\
  (control_callback d' = control_callback d /\
   complete_callback d' = complete_callback d /\
   config_callback d' = config_callback d /\
   descriptor_callback d' = descriptor_callback d /\
   events d' = events d /\
   endpoint d' = endpoint d /\
   data_count (status d') = data_count (status d) /\
   device_cfg (status d') = device_cfg (status d) /\
   device_state (status d') = device_state (status d) /\
   control_state (status d') = control_state (status d)).
Proof.
  simpl. rewrite to_uint16_size_t, offsetof_ctlreq_data.
  repeat split.
Qed.

(** C9: each of [usbd_ep_config], [usbd_ep_deconfig], [usbd_ep_read],
    [usbd_ep_write], [usbd_ep_stall] and [usbd_ep_unstall] leaves the device
    structure as it was and makes exactly one call through the driver table;
    [usbd_ep_stall] passes the flag 1 (true) and [usbd_ep_unstall] the flag 0
    (false) to [ep_setstall]. *)
Theorem usbd_ep_wrappers_frame {World : Type} (d : usbd_device World)
    (drv : usbd_driver World) (w : World) (ep eptype epsize buf blen : Z) :
  driver d = Some drv ->
  usbd_ep_config ep eptype epsize {| dev := d; world := w |}
  = Some (fst (ep_config drv ep eptype epsize w),
          {| dev := d; world := snd (ep_config drv ep eptype epsize w) |},
          [hw_ep_config ep eptype epsize]) /\
  usbd_ep_deconfig ep {| dev := d; world := w |}
  = Some (tt, {| dev := d; world := ep_deconfig drv ep w |}, [hw_ep_deconfig ep]) /\
  usbd_ep_read ep buf blen {| dev := d; world := w |}
  = Some (to_uint16 (fst (ep_read drv ep buf blen w)),
          {| dev := d; world := snd (ep_read drv ep buf blen w) |},
          [hw_ep_read ep buf blen]) /\
  usbd_ep_write ep buf blen {| dev := d; world := w |}
  = Some (to_uint16 (fst (ep_write drv ep buf blen w)),
          {| dev := d; world := snd (ep_write drv ep buf blen w) |},
          [hw_ep_write ep buf blen]) /\
  usbd_ep_stall ep {| dev := d; world := w |}
  = Some (tt, {| dev := d; world := ep_setstall drv ep true w |},
          [hw_ep_setstall ep true]) /\
  usbd_ep_unstall ep {| dev := d; world := w |}
  = Some (tt, {| dev := d; world := ep_setstall drv ep false w |},
          [hw_ep_setstall ep false]).
Proof.
  intros Hd.
  unfold usbd_ep_config, usbd_ep_deconfig, usbd_ep_read, usbd_ep_write,
    usbd_ep_stall, usbd_ep_unstall, invoke_void, invoke,
    mbind, M_bind, bind, mret, M_ret, ret, the_driver.
  simpl. rewrite Hd. simpl.
  destruct (ep_config drv ep eptype epsize w), (ep_read drv ep buf blen w),
    (ep_write drv ep buf blen w).
  repeat split.
Qed.

Lemma usbd_ep_wrappers_frame_witness :
  let d := usbd_init zero_device (Some (counting_driver 8 8 true no_events)) 64 0x20000000 136 in
  driver d = Some (counting_driver 8 8 true no_events) /\
  usbd_ep_stall 0x81 {| dev := d; world := 0%nat |}
  = Some (tt, {| dev := d; world := 1%nat |}, [hw_ep_setstall 0x81 true]) /\
  usbd_ep_unstall 0x81 {| dev := d; world := 0%nat |}
  = Some (tt, {| dev := d; world := 1%nat |}, [hw_ep_setstall 0x81 false]).
Proof.
  intros d. split; [reflexivity |].
  pose proof (usbd_ep_wrappers_frame d (counting_driver 8 8 true no_events) 0%nat 0x81 2 64
                0x20000100 8 eq_refl) as H.
  split; apply H.
Defined.

(** C10: for every 8-bit endpoint argument [usbd_reg_endpoint] stores inside
    the 8-entry endpoint table, its index being masked with 0x07;
    [usbd_reg_event] stores at [events[evt]] unmasked, which is inside the
    9-entry event table exactly when [evt < usbd_evt_count], and then the
    store is defined. *)
Theorem usbd_reg_bounds {World : Type} (d : usbd_device World) (cb : usbd_evt_callback) :
  wf_device d ->
  (forall ep, is_uint8 ep ->
     0 <= Z.land ep 0x07 < 8 /\
     usbd_reg_endpoint d ep cb
     = Some (set_endpoint d (<[Z.to_nat (Z.land ep 0x07) := cb]> (endpoint d)))) /\
  (forall evt, is_uint8 evt ->
     (is_Some (usbd_reg_event d evt cb) <-> evt < usbd_evt_count) /\
     (evt < usbd_evt_count ->
        usbd_reg_event d evt cb = Some (set_events d (<[Z.to_nat evt := cb]> (events d)))) /\
     (usbd_evt_count <= evt -> usbd_reg_event d evt cb = None)).
Proof.
  intros [Hev Hep]. split.
  - intros ep _. pose proof (land_7_range ep) as Hr. split; [exact Hr |].
    unfold usbd_reg_endpoint. rewrite array_store_in_range by lia. reflexivity.
  - intros evt [Hlo Hhi]. unfold usbd_reg_event. repeat split.
    + intros Hs. destruct (array_store (events d) evt cb) eqn:Hst.
      * assert (Hin : is_Some (array_store (events d) evt cb)) by (rewrite Hst; eauto).
        apply array_store_is_Some in Hin. lia.
      * destruct Hs as [x Hx]. discriminate.
    + intros Hlt. rewrite array_store_in_range by lia. eauto.
    + intros Hlt. rewrite array_store_in_range by lia. reflexivity.
    + intros Hge. destruct (array_store (events d) evt cb) eqn:Hst; [| reflexivity].
      assert (Hin : is_Some (array_store (events d) evt cb)) by (rewrite Hst; eauto).
      apply array_store_is_Some in Hin. lia.
Qed.

Lemma usbd_reg_bounds_witness :
  wf_device zero_device /\
  usbd_reg_endpoint zero_device 0xFF 0x08000400
  = Some (set_endpoint zero_device [NULL; NULL; NULL; NULL; NULL; NULL; NULL; 0x08000400]) /\
  usbd_reg_event zero_device 9 0x08000400 = None /\
  usbd_reg_event zero_device usbd_evt_esof 0x08000400
  = Some (set_events zero_device
            [NULL; NULL; NULL; NULL; NULL; NULL; NULL; NULL; 0x08000400]).
Proof.
  assert (Hwf : wf_device zero_device) by (split; reflexivity).
  pose proof (usbd_reg_bounds zero_device 0x08000400 Hwf) as [Hep Hev].
  split; [exact Hwf |]. split; [| split].
  - apply (Hep 0xFF). unfold is_uint8. lia.
  - apply (Hev 9). { unfold is_uint8. lia. } unfold usbd_evt_count. lia.
  - apply (Hev usbd_evt_esof). { unfold is_uint8, usbd_evt_esof. lia. }
    unfold usbd_evt_esof, usbd_evt_count. lia.
Defined.

(** * Properties of the core behind [usbd_poll] *)

Section MachineProperties.

Context {World : Type}.
Variable env : environment World.
Implicit Types (c : core World) (l : list call).

(** ** Running computations *)

Lemma bind_inv {S A B : Type} (m : M S A) (k : A -> M S B) (s s' : S) (b : B) l :
  (m ≫= k) s = Some (b, s', l) ->
  exists a s1 l1 l2, m s = Some (a, s1, l1) /\ k a s1 = Some (b, s', l2) /\ l = l1 ++ l2.
Proof.
  unfold mbind, M_bind, bind. intros H.
  destruct (m s) as [[[a s1] l1] |]; [| discriminate].
  destruct (k a s1) as [[[b' s2] l2] |] eqn:Hk; [| discriminate].
  inversion H; subst. eauto 10.
Qed.

Lemma bind_run {S A B : Type} (m : M S A) (k : A -> M S B) (s s1 s2 : S) a b l1 l2 :
  m s = Some (a, s1, l1) -> k a s1 = Some (b, s2, l2) ->
  (m ≫= k) s = Some (b, s2, l1 ++ l2).
Proof. intros Hm Hk. unfold mbind, M_bind, bind. rewrite Hm, Hk. reflexivity. Qed.

Lemma ret_inv {S A : Type} (a a' : A) (s s' : S) l :
  (mret a : M S A) s = Some (a', s', l) -> a' = a /\ s' = s /\ l = [].
Proof. unfold mret, M_ret, ret. intros H. inversion H. auto. Qed.

Lemma get_inv c c1 c' l : get c = Some (c1, c', l) -> c1 = c /\ c' = c /\ l = [].
Proof. unfold get. intros H. inversion H. auto. Qed.

Lemma modify_inv (f : core World -> core World) c u c' l :
  modify f c = Some (u, c', l) -> c' = f c /\ l = [].
Proof. unfold modify. intros H. inversion H. auto. Qed.

Lemma frame_refl c : frame c c.
Proof. repeat split. Qed.

Lemma frame_trans c1 c2 c3 : frame c1 c2 -> frame c2 c3 -> frame c1 c3.
Proof. unfold frame. intros (-> & -> & -> & ->) (-> & -> & -> & ->). repeat split. Qed.

Lemma driver_call_inv {A : Type} (cl : call) (op : usbd_driver World -> World -> A * World)
    c (a : A) c' l :
  lift (drv ← the_driver; invoke cl (op drv)) c = Some (a, c', l) ->
  l = [cl] /\ frame c c' /\
  exists drv, driver (device c) = Some drv /\ op drv (world (sys c)) = (a, world (sys c')).
Proof.
  unfold lift, mbind, M_bind, bind, the_driver, invoke, device. intros H.
  destruct (driver (dev (sys c))) as [drv |] eqn:Hd; [| discriminate].
  destruct (op drv (world (sys c))) as [a' w'] eqn:Hop. simpl in H.
  inversion H; subst; simpl. repeat split. exists drv. rewrite Hop. auto.
Qed.

Lemma call_out_inv {A : Type} (cl : call) (f : World -> A * World) c (a : A) c' l :
  call_out cl f c = Some (a, c', l) -> l = [cl] /\ frame c c'.
Proof.
  unfold call_out, lift, invoke. intros H.
  destruct (f (world (sys c))) as [a' w']. inversion H; subst. repeat split.
Qed.

Lemma call_out_void_inv (cl : call) (f : World -> World) c u c' l :
  call_out_void cl f c = Some (u, c', l) -> l = [cl] /\ frame c c'.
Proof.
  unfold call_out_void, lift, invoke_void, invoke. intros H.
  inversion H; subst. repeat split.
Qed.

Lemma store_inv addr bytes c u c' l :
  store env addr bytes c = Some (u, c', l) -> l = [] /\ frame c c'.
Proof. unfold store. intros H. inversion H; subst. repeat split. Qed.


Ltac minv :=
  repeat match goal with
  | H : mbind _ _ _ = Some _ |- _ =>
      apply bind_inv in H; destruct H as (? & ? & ? & ? & ? & ? & ?)
  | H : mret _ _ = Some _ |- _ => apply ret_inv in H; destruct H as (? & ? & ?)
  | H : get _ = Some _ |- _ => apply get_inv in H; destruct H as (? & ? & ?)
  | H : modify _ _ = Some _ |- _ => apply modify_inv in H; destruct H as (? & ?)
  | H : store _ _ _ _ = Some _ |- _ => apply store_inv in H; destruct H as (? & ?)
  end.

Ltac hw_call_inv :=
  let H := fresh in
  intros H; apply driver_call_inv in H; destruct H as (? & ? & _); auto.

Lemma hw_read_inv ep buf blen c r c' l :
  hw_read ep buf blen c = Some (r, c', l) -> l = [hw_ep_read ep buf blen] /\ frame c c'.
Proof. unfold hw_read. hw_call_inv. Qed.

Lemma hw_write_inv ep buf blen c r c' l :
  hw_write ep buf blen c = Some (r, c', l) -> l = [hw_ep_write ep buf blen] /\ frame c c'.
Proof. unfold hw_write. hw_call_inv. Qed.

Lemma hw_stall_inv ep b c u c' l :
  hw_stall ep b c = Some (u, c', l) -> l = [hw_ep_setstall ep b] /\ frame c c'.
Proof. unfold hw_stall, invoke_void. hw_call_inv. Qed.

Lemma hw_stalled_inv ep c r c' l :
  hw_stalled ep c = Some (r, c', l) -> l = [hw_ep_isstalled ep] /\ frame c c'.
Proof. unfold hw_stalled. hw_call_inv. Qed.

Lemma hw_set_address_inv a c u c' l :
  hw_set_address a c = Some (u, c', l) -> l = [hw_setaddr a] /\ frame c c'.
Proof. unfold hw_set_address, invoke_void. hw_call_inv. Qed.

Lemma hw_configure_inv ep t n c r c' l :
  hw_configure ep t n c = Some (r, c', l) -> l = [hw_ep_config ep t n] /\ frame c c'.
Proof. unfold hw_configure. hw_call_inv. Qed.

Lemma hw_events_inv c evts c' l :
  hw_events c = Some (evts, c', l) -> l = [hw_poll] /\ frame c c'.
Proof. unfold hw_events. hw_call_inv. Qed.

Ltac hinv :=
  repeat match goal with
  | H : hw_read _ _ _ _ = Some _ |- _ => apply hw_read_inv in H; destruct H as (? & ?)
  | H : hw_write _ _ _ _ = Some _ |- _ => apply hw_write_inv in H; destruct H as (? & ?)
  | H : hw_stall _ _ _ = Some _ |- _ => apply hw_stall_inv in H; destruct H as (? & ?)
  | H : hw_stalled _ _ = Some _ |- _ => apply hw_stalled_inv in H; destruct H as (? & ?)
  | H : hw_set_address _ _ = Some _ |- _ => apply hw_set_address_inv in H; destruct H as (? & ?)
  | H : hw_configure _ _ _ _ = Some _ |- _ => apply hw_configure_inv in H; destruct H as (? & ?)
  | H : hw_events _ = Some _ |- _ => apply hw_events_inv in H; destruct H as (? & ?)
  end.

(** ** Calls of [set_address] in a sequence of calls *)

Lemma quiet_nil : quiet [].
Proof. intros a []. Qed.

Lemma quiet_app l1 l2 : quiet l1 -> quiet l2 -> quiet (l1 ++ l2).
Proof. intros H1 H2 a Hin. apply in_app_or in Hin as [Hin | Hin]; [eapply H1 | eapply H2]; eauto. Qed.

Lemma quiet_single cl : is_setaddr cl = false -> quiet [cl].
Proof. intros Hc a [-> | []]. discriminate. Qed.

Lemma quiet_not_in l a : quiet l -> In (hw_setaddr a) l -> False.
Proof. intros H Hin. exact (H a Hin). Qed.

Ltac quiet := subst; repeat (apply quiet_app); auto using quiet_nil, quiet_single.

(** The fields of the state behind a frame. *)
Lemma frame_st c c' : frame c c' -> st c' = st c.
Proof. unfold frame, st, device. intros (-> & _). reflexivity. Qed.

Lemma same_transfer_refl c : same_transfer c c.
Proof. repeat split. Qed.

Lemma same_transfer_trans c1 c2 c3 :
  same_transfer c1 c2 -> same_transfer c2 c3 -> same_transfer c1 c3.
Proof.
  unfold same_transfer. intros (H1 & H2 & H3 & H4) (H5 & H6 & H7 & H8).
  repeat split; congruence.
Qed.

Lemma frame_same_transfer c c' : frame c c' -> same_transfer c c'.
Proof.
  intros Hf. pose proof (frame_st _ _ Hf) as Hst. destruct Hf as (_ & ? & ? & ?).
  repeat split; congruence.
Qed.


Ltac zbool :=
  repeat match goal with
  | H : (_ =? _) = true |- _ => apply Z.eqb_eq in H
  | H : (_ =? _) = false |- _ => apply Z.eqb_neq in H
  | H : (_ <? _) = true |- _ => apply Z.ltb_lt in H
  | H : (_ <? _) = false |- _ => apply Z.ltb_ge in H
  | H : (_ <=? _) = true |- _ => apply Z.leb_le in H
  | H : (_ <=? _) = false |- _ => apply Z.leb_gt in H
  | H : negb _ = true |- _ => apply negb_true_iff in H
  | H : negb _ = false |- _ => apply negb_false_iff in H
  | H : (_ || _) = true |- _ => apply orb_true_iff in H
  | H : (_ || _) = false |- _ => apply orb_false_iff in H; destruct H
  | H : (_ && _) = true |- _ => apply andb_true_iff in H; destruct H
  | H : (_ && _) = false |- _ => apply andb_false_iff in H
  end.

(** Case analysis on the condition of a conditional computation. *)
Ltac mcase :=
  match goal with
  | H : (if ?b then _ else _) _ = Some _ |- _ => destruct b eqn:?
  | H : (match ?x with Some _ => _ | None => _ end) _ = Some _ |- _ => destruct x eqn:?
  end.

(** The assignments to the state are unfolded and the fields they build
    read off. *)
Ltac core_simpl :=
  unfold same_transfer, frame, abort_transfer, set_busy, set_pending,
    set_request, set_machine, set_cursor, set_control_state, set_complete_callback,
    set_status, set_device, st, device in *;
  simpl in *.

(** ** What each part of the state machine does to the active transfer *)

Lemma stall_pid_spec c u c' l :
  stall_pid c = Some (u, c', l) ->
  quiet l /\ pending_address c' = None /\ busy c' = false /\
  control_state (st c') = usbd_ctl_idle.
Proof.
  unfold stall_pid. intros H. minv. hinv. subst. repeat split. quiet.
Qed.

Lemma stall_pid_request c u c' l :
  stall_pid c = Some (u, c', l) -> request c' = request c.
Proof.
  unfold stall_pid. intros H. minv. hinv. subst.
  match goal with Hf : frame _ _ |- _ => destruct Hf as (_ & Hr & _) end.
  exact Hr.
Qed.

Tactic Notation "binv" hyp(H) "as" ident(a) ident(c1) ident(l1) ident(l2) ident(H1) :=
  apply bind_inv in H; destruct H as (a & c1 & l1 & l2 & H1 & H & ?); subst.

Ltac ginv H := apply get_inv in H; destruct H as (? & ? & ?); subst.

Lemma complete_callback_spec c u c' l :
  (if complete_callback (device c) =? NULL then mret tt
   else
     call_out_void (cb_complete (complete_callback (device c)))
       (rqc_callback env (complete_callback (device c)) (request c)) ;;
     modify (set_complete_callback NULL)) c = Some (u, c', l) ->
  quiet l /\ same_transfer c c'.
Proof.
  intros H. mcase.
  - minv. subst. split; [quiet | apply same_transfer_refl].
  - binv H as u1 c1 l1 l2 Hc.
    apply call_out_void_inv in Hc as (-> & Hf). apply frame_same_transfer in Hf.
    destruct Hf as (? & ? & ? & ?). minv. subst. split; [quiet |].
    repeat split; core_simpl; congruence.
Qed.

Lemma complete_transfer_spec c u c' l :
  complete_transfer env c = Some (u, c', l) ->
  pending_address c' = None /\ busy c' = busy c /\
  control_state (st c') = control_state (st c) /\
  match pending_address c with
  | Some a => exists pre, l = pre ++ [hw_setaddr a] /\ quiet pre
  | None => quiet l
  end.
Proof.
  unfold complete_transfer. intros H.
  binv H as c0 c1 l1 l2 Hg. ginv Hg.
  binv H as u1 c2 l3 l4 Hcb.
  apply complete_callback_spec in Hcb as (Hq & Hr & Hp & Hb & Hs).
  destruct (pending_address c) as [a |] eqn:Hpa.
  - binv H as u2 c3 l5 l6 Ha. apply hw_set_address_inv in Ha as (-> & Hf).
    apply frame_same_transfer in Hf as (? & ? & ? & ?).
    apply modify_inv in H as (-> & ->).
    repeat split; core_simpl; try congruence.
    exists l3. rewrite ?app_nil_r. auto.
  - apply ret_inv in H as (_ & -> & ->).
    repeat split; core_simpl; try congruence. rewrite ?app_nil_r. exact Hq.
Qed.

Lemma user_request_spec c r c' l :
  user_request env c = Some (r, c', l) -> quiet l /\ same_transfer c c'.
Proof.
  unfold user_request. intros H.
  binv H as c0 c1 l1 l2 Hg. ginv Hg. mcase.
  - minv. subst. split; [quiet | apply same_transfer_refl].
  - binv H as rp c2 l3 l4 Hc.
    apply call_out_inv in Hc as (-> & Hf). apply frame_same_transfer in Hf.
    destruct Hf as (? & ? & ? & ?). mcase; minv; subst.
    + split; [quiet |]. repeat split; core_simpl; congruence.
    + split; [quiet |]. repeat split; core_simpl; congruence.
Qed.

(** Every bind, call and conditional of a run is taken apart. *)
Ltac crunch :=
  repeat first
    [ progress minv
    | progress hinv
    | match goal with
      | H : call_out _ _ _ = Some _ |- _ => apply call_out_inv in H; destruct H as (? & ?)
      | H : call_out_void _ _ _ = Some _ |- _ =>
          apply call_out_void_inv in H; destruct H as (? & ?)
      end
    | mcase ];
  subst.

Ltac frames :=
  core_simpl;
  repeat match goal with
  | H : _ /\ _ |- _ => destruct H
  end.

Lemma std_request_spec c r c' l :
  pending_address c = None ->
  std_request env c = Some (r, c', l) ->
  quiet l /\ request c' = request c /\ busy c' = busy c /\
  control_state (st c') = control_state (st c) /\
  (pending_address c' = None \/
   r = usbd_ack /\ exists a, pending_address c' = Some a /\ is_set_address (request c) a).
Proof.
  unfold std_request. intros Hp H.
  binv H as c0 c1 l1 l2 Hg. ginv Hg. cbv zeta in H.
  crunch; (split; [quiet |]); zbool; frames.
  all: repeat split; try congruence.
  all: try (left; congruence).
  right. split; [reflexivity |]. eexists. split; [reflexivity |].
  repeat split; assumption.
Qed.

Lemma process_request_spec c r c' l :
  pending_address c = None ->
  process_request env c = Some (r, c', l) ->
  quiet l /\ request c' = request c /\ busy c' = busy c /\
  control_state (st c') = control_state (st c) /\
  (pending_address c' = None \/
   r = usbd_ack /\ exists a, pending_address c' = Some a /\ is_set_address (request c) a).
Proof.
  unfold process_request. intros Hp H.
  binv H as r1 c1 l1 l2 Hu.
  apply user_request_spec in Hu as (Hq & Hr & Hpa & Hb & Hs). mcase.
  - apply std_request_spec in H as (Hq2 & Hr2 & Hb2 & Hs2 & Hp2); [| congruence].
    split; [quiet |]. rewrite <- Hr. repeat split; congruence.
  - apply ret_inv in H as (-> & -> & ->).
    split; [quiet |]. repeat split; try congruence. left. congruence.
Qed.

(** What is left of the active transfer after a step that may fail: it is
    as it was, in an accepted state, or it has been aborted. *)
Lemma tx_packet_spec c u c' l :
  tx_packet c = Some (u, c', l) ->
  quiet l /\ request c' = request c /\
  ((pending_address c' = pending_address c /\ busy c' = busy c /\
    accepted_state (control_state (st c'))) \/
   (pending_address c' = None /\ control_state (st c') = usbd_ctl_idle)).
Proof.
  unfold tx_packet. intros H.
  binv H as c0 c1 l0 l1 Hg. ginv Hg. cbv zeta in H.
  binv H as r c2 l2 l3 Hw. apply hw_write_inv in Hw as (-> & Hf).
  apply frame_same_transfer in Hf as (Hr2 & Hp2 & Hb2 & Hs2).
  mcase.
  - pose proof (stall_pid_request _ _ _ _ H) as Hr.
    apply stall_pid_spec in H as (Hq & Hp & Hb & Hs).
    split; [quiet |]. split; [congruence |]. right. auto.
  - apply modify_inv in H as (-> & ->).
    split; [quiet |]. split; [core_simpl; congruence |]. left.
    split; [core_simpl; congruence |]. split; [core_simpl; congruence |].
    core_simpl. unfold accepted_state. repeat case_match; auto.
Qed.

Lemma begin_tx_spec c u c' l :
  begin_tx c = Some (u, c', l) ->
  quiet l /\ request c' = request c /\
  ((pending_address c' = pending_address c /\ busy c' = busy c /\
    accepted_state (control_state (st c'))) \/
   (pending_address c' = None /\ control_state (st c') = usbd_ctl_idle)).
Proof.
  unfold begin_tx. intros H.
  binv H as c0 c1 l1 l2 Hg. ginv Hg.
  binv H as u1 c2 l3 l4 Hm.
  apply tx_packet_spec in H as (Hq & Hr & Hk).
  assert (Hc2 : l3 = [] /\ request c2 = request c /\
                pending_address c2 = pending_address c /\ busy c2 = busy c).
  { mcase; minv; subst; repeat split. }
  destruct Hc2 as (-> & ? & ? & ?).
  split; [quiet |]. split; [congruence |].
  destruct Hk as [(? & ? & ?) | (? & ?)]; [left | right]; repeat split; congruence.
Qed.

Lemma handle_request_spec c u c' l :
  pending_address c = None ->
  handle_request env c = Some (u, c', l) ->
  quiet l /\ pending_inv c'.
Proof.
  unfold handle_request. intros Hp H.
  binv H as u0 c0 l0 l1 Hm. apply modify_inv in Hm as (-> & ->).
  binv H as r c1 l2 l3 Hr.
  apply process_request_spec in Hr as (Hq & Hrq & Hb & Hs & Hpa); [| exact Hp].
  binv H as c2 c3 l4 l5 Hg. ginv Hg.
  change (request (set_busy false (set_cursor (data_buf (st c) + 8) (data_maxsize (st c)) c)))
    with (request c) in *.
  change (busy (set_busy false (set_cursor (data_buf (st c) + 8) (data_maxsize (st c)) c)))
    with false in *.
  mcase; [mcase | mcase].
  - apply begin_tx_spec in H as (Hq2 & Hr2 & Hk).
    split; [quiet |].
    intros a Ha. destruct Hk as [(Hp2 & Hb2 & Hs2) | (Hp2 & _)]; [| congruence].
    rewrite Hp2 in Ha.
    destruct Hpa as [Hn | (_ & a' & Ha' & Hset)]; [congruence |].
    repeat split; try congruence; rewrite Hr2, Hrq; replace a with a' by congruence;
      apply Hset.
  - binv H as n c4 l6 l7 Hw. apply hw_write_inv in Hw as (-> & Hf).
    apply frame_same_transfer in Hf as (Hr4 & Hp4 & Hb4 & Hs4).
    mcase.
    + apply modify_inv in H as (-> & ->).
      split; [quiet |].
      intros a Ha. change (pending_address c4 = Some a) in Ha.
      destruct Hpa as [Hn | (_ & a' & Ha' & Hset)]; [congruence |].
      split; [core_simpl; congruence |]. split.
      * right. right. right. left. reflexivity.
      * change (is_set_address (request c4) a). rewrite Hr4, Hrq.
        replace a with a' by congruence. exact Hset.
    + apply stall_pid_spec in H as (Hq2 & Hp2 & Hb2 & Hs2).
      split; [quiet |]. intros a Ha. congruence.
  - apply modify_inv in H as (-> & ->).
    zbool. subst r.
    split; [quiet |].
    intros a Ha. change (pending_address c1 = Some a) in Ha.
    destruct Hpa as [Hn | (Hack & _)]; [congruence | discriminate].
  - apply stall_pid_spec in H as (Hq2 & Hp2 & Hb2 & Hs2).
    split; [quiet |]. intros a Ha. congruence.
Qed.

Lemma pending_inv_none c : pending_address c = None -> pending_inv c.
Proof. intros Hp a Ha. congruence. Qed.

Lemma pending_inv_keep c c' :
  pending_inv c ->
  request c' = request c -> pending_address c' = pending_address c ->
  busy c' = busy c -> accepted_state (control_state (st c')) ->
  pending_inv c'.
Proof.
  intros Hinv Hr Hp Hb Hs a Ha. rewrite Hp in Ha.
  destruct (Hinv a Ha) as (? & ? & ?).
  split; [congruence |]. split; [exact Hs |]. rewrite Hr. assumption.
Qed.

Lemma process_setup_spec c u c' l :
  process_setup env c = Some (u, c', l) -> quiet l /\ pending_inv c'.
Proof.
  unfold process_setup. intros H.
  binv H as u0 c0 l0 l1 Hm. apply modify_inv in Hm as (-> & ->).
  binv H as c1 c2 l2 l3 Hg. ginv Hg.
  binv H as n c3 l4 l5 Hr. apply hw_read_inv in Hr as (-> & Hf).
  apply frame_same_transfer in Hf as (Hr3 & Hp3 & Hb3 & Hs3).
  change (pending_address c3 = None) in Hp3.
  mcase.
  - apply stall_pid_spec in H as (Hq & Hp & _).
    split; [quiet | apply pending_inv_none; exact Hp].
  - binv H as c4 c5 l6 l7 Hg. ginv Hg. cbv zeta in H.
    binv H as u1 c6 l8 l9 Hm. apply modify_inv in Hm as (-> & ->).
    mcase; [| mcase].
    + apply handle_request_spec in H as (Hq & Hinv); [| exact Hp3].
      split; [quiet | exact Hinv].
    + apply stall_pid_spec in H as (Hq & Hp & _).
      split; [quiet | apply pending_inv_none; exact Hp].
    + apply modify_inv in H as (-> & ->).
      split; [quiet | apply pending_inv_none; exact Hp3].
Qed.

(** ** Moments *)

Lemma quiet_moment c s c' l :
  quiet l ->
  (completes_status c s -> pending_address c = None) ->
  deferred_setaddr {| before := c; cause := s; calls := l; after := c' |}.
Proof.
  intros Hq Hn. split; simpl.
  - intros a Hin. destruct (Hq a Hin).
  - intros a Hc Hp. specialize (Hn Hc). congruence.
Qed.

Lemma completing_moment c s c' l :
  pending_inv c ->
  completes_status c s ->
  pending_address c' = None ->
  control_state (st c') = usbd_ctl_idle ->
  match pending_address c with
  | Some a => exists pre, l = pre ++ [hw_setaddr a] /\ quiet pre
  | None => quiet l
  end ->
  deferred_setaddr {| before := c; cause := s; calls := l; after := c' |}.
Proof.
  intros Hinv Hc Hp' Hs' Hl.
  destruct (pending_address c) as [a |] eqn:Hp.
  - destruct Hl as (pre & -> & Hq). destruct (Hinv a Hp) as (_ & _ & Hset).
    split; simpl.
    + intros a' Hin. apply in_app_or in Hin as [Hin | [Heq | []]].
      * destruct (Hq a' Hin).
      * inversion Heq; subst a'. repeat split; auto; try apply Hset. eauto.
    + intros a' _ Ha'. left. apply in_or_app. right. left. congruence.
  - apply quiet_moment; auto.
Qed.

(** The STATUS-OUT stage could not be completed: endpoint 0 is stalled and
    whatever was pending is dropped. *)
Lemma aborted_status_out c s c' l :
  quiet l ->
  control_state (st c) = usbd_ctl_statusout ->
  In (hw_ep_setstall EP0_OUT true) l ->
  pending_address c' = None ->
  deferred_setaddr {| before := c; cause := s; calls := l; after := c' |}.
Proof.
  intros Hq Hs Hin Hp. split; simpl.
  - intros a Ha. destruct (Hq a Ha).
  - intros a _ _. right. auto.
Qed.

Lemma process_eptx_spec c ep u c' l :
  Z.land ep 0x07 = 0 ->
  pending_inv c ->
  process_eptx env c = Some (u, c', l) ->
  pending_inv c' /\
  deferred_setaddr
    {| before := c; cause := Event usbd_evt_eptx ep; calls := l; after := c' |}.
Proof.
  unfold process_eptx. intros Hep Hinv H.
  binv H as c0 c1 l0 l1 Hg. ginv Hg.
  mcase; [| mcase; [| mcase]].
  - apply tx_packet_spec in H as (Hq & Hr & Hk). split.
    + destruct Hk as [(Hp & Hb & Hs) | (Hp & _)];
        [eapply pending_inv_keep; eauto | apply pending_inv_none; exact Hp].
    + apply quiet_moment; [quiet |]. simpl. intros (_ & [(_ & Hst) | (Hevt & _)]).
      * zbool. unfold usbd_ctl_statusin, usbd_ctl_txdata, usbd_ctl_ztxdata in *. lia.
      * discriminate.
  - apply modify_inv in H as (-> & ->). split.
    + eapply pending_inv_keep; eauto.
      right. right. right. right. reflexivity.
    + apply quiet_moment; [quiet |]. simpl. intros (_ & [(_ & Hst) | (Hevt & _)]).
      * zbool. unfold usbd_ctl_statusin, usbd_ctl_lastdata in *. lia.
      * discriminate.
  - binv H as u1 c2 l2 l3 Hm. apply modify_inv in Hm as (-> & ->).
    apply complete_transfer_spec in H as (Hp & Hb & Hs & Hl).
    split; [apply pending_inv_none; exact Hp |].
    apply completing_moment; auto.
    simpl. split; [exact Hep |]. left. zbool. auto.
  - apply stall_pid_spec in H as (Hq & Hp & Hb & Hs).
    split; [apply pending_inv_none; exact Hp |].
    apply quiet_moment; [quiet |]. simpl. intros (_ & [(_ & Hst) | (Hevt & _)]).
    + zbool. congruence.
    + discriminate.
Qed.

Lemma process_eprx_spec c ep u c' l :
  Z.land ep 0x07 = 0 ->
  pending_inv c ->
  process_eprx env c = Some (u, c', l) ->
  pending_inv c' /\
  deferred_setaddr
    {| before := c; cause := Event usbd_evt_eprx ep; calls := l; after := c' |}.
Proof.
  unfold process_eprx. intros Hep Hinv H.
  binv H as c0 c1 l0 l1 Hg. ginv Hg.
  mcase; [| mcase].
  - (* DATA-OUT stage: no address is pending *)
    assert (Hnone : pending_address c = None).
    { destruct (pending_address c) as [a |] eqn:Hp; [| reflexivity].
      destruct (Hinv a Hp) as (_ & Hacc & _). zbool. unfold accepted_state in Hacc.
      unfold usbd_ctl_rxdata, usbd_ctl_txdata, usbd_ctl_ztxdata, usbd_ctl_lastdata,
        usbd_ctl_statusin, usbd_ctl_statusout in *. lia. }
    assert (Hnc : completes_status c (Event usbd_evt_eprx ep) -> pending_address c = None)
      by (intros _; exact Hnone).
    binv H as n c2 l2 l3 Hr. apply hw_read_inv in Hr as (-> & Hf).
    apply frame_same_transfer in Hf as (Hr2 & Hp2 & Hb2 & Hs2).
    mcase; [| mcase].
    + apply stall_pid_spec in H as (Hq & Hp & _).
      split; [apply pending_inv_none; exact Hp | apply quiet_moment; [quiet | exact Hnc]].
    + apply modify_inv in H as (-> & ->).
      split; [apply pending_inv_none; core_simpl; congruence |].
      apply quiet_moment; [quiet | exact Hnc].
    + apply handle_request_spec in H as (Hq & Hinv'); [| congruence].
      split; [exact Hinv' | apply quiet_moment; [quiet | exact Hnc]].
  - binv H as n c2 l2 l3 Hr. apply hw_read_inv in Hr as (-> & Hf).
    apply frame_same_transfer in Hf as (Hr2 & Hp2 & Hb2 & Hs2).
    mcase.
    + binv H as u1 c3 l4 l5 Hm. apply modify_inv in Hm as (-> & ->).
      apply complete_transfer_spec in H as (Hp & Hb & Hs & Hl).
      split; [apply pending_inv_none; exact Hp |].
      apply completing_moment; auto.
      * simpl. split; [exact Hep |]. right. zbool. auto.
      * change (pending_address (set_control_state usbd_ctl_idle c2))
          with (pending_address c2) in Hl. rewrite Hp2 in Hl.
        destruct (pending_address c) as [a |].
        -- destruct Hl as (pre & -> & Hq). exists (hw_ep_read EP0_OUT 0 0 :: pre).
           split; [reflexivity |]. apply (quiet_app [_]); [quiet | exact Hq].
        -- quiet.
    + unfold stall_pid in H. binv H as u1 c3 l4 l5 Hst.
      apply hw_stall_inv in Hst as (-> & Hf3). apply modify_inv in H as (-> & ->).
      split; [apply pending_inv_none; reflexivity |].
      apply aborted_status_out; [quiet | zbool; assumption | | reflexivity].
      simpl. right. left. reflexivity.
  - apply stall_pid_spec in H as (Hq & Hp & Hb & Hs).
    split; [apply pending_inv_none; exact Hp |].
    apply quiet_moment; [quiet |]. simpl. intros (_ & [(Hevt & _) | (_ & Hst)]).
    + discriminate.
    + zbool. congruence.
Qed.

Lemma notify_spec slot evt ep c u c' l :
  notify env slot evt ep c = Some (u, c', l) -> quiet l /\ same_transfer c c'.
Proof.
  unfold notify. intros H. destruct slot as [cb |].
  - mcase.
    + apply ret_inv in H as (_ & -> & ->). split; [quiet | apply same_transfer_refl].
    + apply call_out_void_inv in H as (-> & Hf).
      split; [quiet | apply frame_same_transfer; exact Hf].
  - apply ret_inv in H as (_ & -> & ->). split; [quiet | apply same_transfer_refl].
Qed.

Lemma process_reset_spec c u c' l :
  process_reset c = Some (u, c', l) -> quiet l /\ pending_address c' = None.
Proof.
  unfold process_reset. intros H.
  binv H as u0 c0 l0 l1 Hm. apply modify_inv in Hm as (-> & ->).
  binv H as c1 c2 l2 l3 Hg. ginv Hg.
  binv H as ok c3 l4 l5 Hc. apply hw_configure_inv in Hc as (-> & Hf).
  destruct ok.
  - apply ret_inv in H as (_ & -> & ->). split; [quiet |].
    destruct Hf as (_ & _ & Hp & _). exact Hp.
  - apply stall_pid_spec in H as (Hq & Hp & _). split; [quiet | exact Hp].
Qed.

Lemma pending_inv_same c c' : pending_inv c -> same_transfer c c' -> pending_inv c'.
Proof.
  intros Hinv (Hr & Hp & Hb & Hs) a Ha. rewrite Hp in Ha.
  destruct (Hinv a Ha) as (? & ? & ?).
  split; [congruence |]. split; [congruence |]. rewrite Hr. assumption.
Qed.

(** ** The reaction to a stimulus *)

Lemma dispatch_spec c evt ep u c' l :
  pending_inv c ->
  dispatch env evt ep c = Some (u, c', l) ->
  pending_inv c' /\
  deferred_setaddr {| before := c; cause := Event evt ep; calls := l; after := c' |}.
Proof.
  unfold dispatch. intros Hinv H.
  mcase; [mcase; [mcase; [| mcase] |] | mcase].
  - apply process_setup_spec in H as (Hq & Hinv'). split; [exact Hinv' |].
    apply quiet_moment; [exact Hq |]. zbool. subst evt. simpl.
    intros (_ & [(Hevt & _) | (Hevt & _)]); discriminate.
  - zbool. subst evt. eapply process_eprx_spec; eauto.
  - destruct (Z.eqb_spec evt usbd_evt_eptx) as [-> | Hne].
    + zbool. eapply process_eptx_spec; eauto.
    + exfalso.
      repeat match goal with
      | Hf : (evt =? _) = false |- _ => rewrite Hf in *; clear Hf
      end.
      discriminate.
  - binv H as c0 c1 l0 l1 Hg. ginv Hg.
    apply notify_spec in H as (Hq & Hsame).
    split; [eapply pending_inv_same; eauto |].
    apply quiet_moment; [quiet |]. simpl. zbool. intros (Hz & _). congruence.
  - binv H as u0 c0 l0 l1 Hr.
    binv H as c1 c2 l2 l3 Hg. ginv Hg.
    apply notify_spec in H as (Hq & Hsame).
    assert (Hmid : quiet l0 /\ pending_inv c0).
    { mcase.
      - apply process_reset_spec in Hr as (Hq0 & Hp0).
        split; [exact Hq0 | apply pending_inv_none; exact Hp0].
      - apply ret_inv in Hr as (_ & -> & ->). split; [quiet | exact Hinv]. }
    destruct Hmid as (Hq0 & Hinv1).
    split; [eapply pending_inv_same; eauto |].
    apply quiet_moment; [quiet |]. simpl. zbool.
    intros (_ & [(Hevt & _) | (Hevt & _)]); congruence.
  - apply ret_inv in H as (_ & -> & ->). split; [exact Hinv |].
    apply quiet_moment; [quiet |]. simpl. zbool.
    intros (_ & [(Hevt & _) | (Hevt & _)]); congruence.
Qed.

Lemma react_spec c s u c' l :
  pending_inv c ->
  react env s c = Some (u, c', l) ->
  pending_inv c' /\
  deferred_setaddr {| before := c; cause := s; calls := l; after := c' |}.
Proof.
  intros Hinv H. destruct s as [| evt ep]; simpl in H.
  - binv H as c0 c1 l0 l1 Hg. ginv Hg. mcase.
    + assert (Hnone : pending_address c = None).
      { destruct (pending_address c) as [a |] eqn:Hp; [| reflexivity].
        destruct (Hinv a Hp) as (Hb & _). congruence. }
      apply handle_request_spec in H as (Hq & Hinv'); [| exact Hnone].
      split; [exact Hinv' |]. apply quiet_moment; [quiet |]. simpl. tauto.
    + apply ret_inv in H as (_ & -> & ->). split; [exact Hinv |].
      apply quiet_moment; [quiet |]. simpl. tauto.
  - eapply dispatch_spec; eauto.
Qed.

Lemma moments_spec ss : forall c ms,
  pending_inv c ->
  moments env ss c = Some ms ->
  Forall deferred_setaddr ms.
Proof.
  induction ss as [| s rest IH]; intros c ms Hinv H; simpl in H.
  - inversion H. constructor.
  - destruct (react env s c) as [[[u c1] l] |] eqn:Hr; [| discriminate].
    destruct (moments env rest c1) as [ms' |] eqn:Hm; [| discriminate].
    inversion H; subst ms. apply react_spec in Hr as (Hinv1 & Hd); [| exact Hinv].
    constructor; [exact Hd | eapply IH; eauto].
Qed.

(** The run of a sequence of stimuli is the sequence of its moments. *)
Lemma react_all_moments ss : forall c u c' l,
  react_all env ss c = Some (u, c', l) ->
  exists ms, moments env ss c = Some ms /\
             l = concat (map calls ms) /\
             (pending_inv c -> pending_inv c').
Proof.
  induction ss as [| s rest IH]; intros c u c' l H; simpl in H.
  - apply ret_inv in H as (_ & -> & ->). exists []. split; [reflexivity |]. split; auto.
  - binv H as u1 c1 l1 l2 Hr. destruct (IH _ _ _ _ H) as (ms & Hm & -> & Hk).
    exists ({| before := c; cause := s; calls := l1; after := c1 |} :: ms).
    simpl. rewrite Hr, Hm. split; [reflexivity |]. split; [reflexivity |].
    intros Hinv. apply Hk. eapply react_spec; eauto.
Qed.

(** ** The request of the active transfer changes only with a SETUP packet *)

Lemma complete_transfer_request c u c' l :
  complete_transfer env c = Some (u, c', l) -> request c' = request c.
Proof. unfold complete_transfer. intros H. crunch; frames; congruence. Qed.

Lemma handle_request_request c u c' l :
  handle_request env c = Some (u, c', l) -> request c' = request c.
Proof.
  unfold handle_request. intros H.
  binv H as u0 c0 l0 l1 Hm. apply modify_inv in Hm as (-> & ->).
  binv H as r c1 l2 l3 Hr.
  assert (Hr1 : request c1 = request c).
  { unfold process_request in Hr. binv Hr as r1 c2 l4 l5 Hu.
    apply user_request_spec in Hu as (_ & Hr2 & _).
    change (request c2 = request c) in Hr2.
    mcase.
    - unfold std_request in Hr. crunch; frames; congruence.
    - apply ret_inv in Hr as (_ & -> & _). exact Hr2. }
  binv H as c3 c4 l6 l7 Hg. ginv Hg.
  mcase; [mcase | mcase].
  - apply begin_tx_spec in H as (_ & Hr2 & _). congruence.
  - binv H as n c5 l8 l9 Hw. apply hw_write_inv in Hw as (_ & Hf).
    destruct Hf as (_ & Hr5 & _). mcase.
    + apply modify_inv in H as (-> & _). core_simpl. congruence.
    + apply stall_pid_request in H. congruence.
  - crunch. frames. congruence.
  - apply stall_pid_request in H. congruence.
Qed.

Lemma react_keeps_request c s u c' l :
  react env s c = Some (u, c', l) ->
  request_kept {| before := c; cause := s; calls := l; after := c' |}.
Proof.
  unfold request_kept. simpl. intros H. destruct s as [| evt ep]; simpl in H.
  - left. binv H as c0 c1 l0 l1 Hg. ginv Hg. mcase.
    + eapply handle_request_request; eauto.
    + apply ret_inv in H as (_ & -> & _). reflexivity.
  - unfold dispatch in H.
    mcase; [mcase; [mcase; [| mcase] |] | mcase].
    + right. zbool. subst evt. eauto.
    + left. unfold process_eprx in H.
      binv H as c0 c1 l0 l1 Hg. ginv Hg. mcase; [| mcase].
      * binv H as n c2 l2 l3 Hr. apply hw_read_inv in Hr as (_ & Hf).
        apply frame_same_transfer in Hf as (Hr2 & _).
        mcase; [| mcase].
        -- apply stall_pid_request in H. congruence.
        -- apply modify_inv in H as (-> & _). exact Hr2.
        -- apply handle_request_request in H. congruence.
      * binv H as n c2 l2 l3 Hr. apply hw_read_inv in Hr as (_ & Hf).
        apply frame_same_transfer in Hf as (Hr2 & _).
        mcase.
        -- binv H as u1 c3 l4 l5 Hm. apply modify_inv in Hm as (-> & _).
           apply complete_transfer_request in H. exact (eq_trans H Hr2).
        -- apply stall_pid_request in H. congruence.
      * eapply stall_pid_request; eauto.
    + left. unfold process_eptx in H.
      binv H as c0 c1 l0 l1 Hg. ginv Hg. mcase; [| mcase; [| mcase]].
      * apply tx_packet_spec in H as (_ & Hr & _). exact Hr.
      * apply modify_inv in H as (-> & _). reflexivity.
      * binv H as u1 c3 l4 l5 Hm. apply modify_inv in Hm as (-> & _).
        apply complete_transfer_request in H. exact H.
      * eapply stall_pid_request; eauto.
    + left. binv H as c0 c1 l0 l1 Hg. ginv Hg.
      apply notify_spec in H as (_ & Hr & _). exact Hr.
    + left. binv H as u0 c0 l0 l1 Hr.
      binv H as c1 c2 l2 l3 Hg. ginv Hg.
      apply notify_spec in H as (_ & Hr2 & _). rewrite Hr2.
      mcase.
      * unfold process_reset in Hr.
        binv Hr as u1 c3 l4 l5 Hm. apply modify_inv in Hm as (-> & _).
        binv Hr as c4 c5 l6 l7 Hg. ginv Hg.
        binv Hr as ok c6 l8 l9 Hc. apply hw_configure_inv in Hc as (_ & Hf).
        destruct Hf as (_ & Hr6 & _). destruct ok.
        -- apply ret_inv in Hr as (_ & -> & _). exact Hr6.
        -- apply stall_pid_request in Hr. exact (eq_trans Hr Hr6).
      * apply ret_inv in Hr as (_ & -> & _). reflexivity.
    + left. apply ret_inv in H as (_ & -> & _). reflexivity.
Qed.

Lemma moments_keep_request ss : forall c ms,
  moments env ss c = Some ms -> Forall request_kept ms.
Proof.
  induction ss as [| s rest IH]; intros c ms H; simpl in H.
  - inversion H. constructor.
  - destruct (react env s c) as [[[u c1] l] |] eqn:Hr; [| discriminate].
    destruct (moments env rest c1) as [ms' |] eqn:Hm; [| discriminate].
    inversion H; subst ms. constructor; [| eapply IH; eauto].
    eapply react_keeps_request; eauto.
Qed.

(** ** The chain writes nothing to endpoint 0 *)

Lemma zlp_count_app l1 l2 : zlp_count (l1 ++ l2) = (zlp_count l1 + zlp_count l2)%nat.
Proof.
  induction l1 as [| cl l1 IH]; [reflexivity |].
  destruct cl; simpl; try exact IH.
  destruct ((Z.land ep 7 =? 0) && (blen =? 0)); simpl; rewrite IH; reflexivity.
Qed.

Lemma bytes_written_app l1 l2 :
  bytes_written (l1 ++ l2) = bytes_written l1 + bytes_written l2.
Proof.
  induction l1 as [| cl l1 IH]; [reflexivity |].
  destruct cl; simpl; try exact IH.
  destruct (Z.land ep 7 =? 0); rewrite IH; lia.
Qed.

Lemma process_request_writes c r c' l :
  process_request env c = Some (r, c', l) ->
  zlp_count l = 0%nat /\ bytes_written l = 0.
Proof.
  unfold process_request, user_request, std_request. intros H.
  crunch; split; reflexivity.
Qed.

(** ** The DATA-IN stage, packet by packet *)

Lemma get_bind {A : Type} (k : core World -> M (core World) A) c :
  (get ≫= k) c = k c c.
Proof.
  unfold mbind, M_bind, bind, get. destruct (k c c) as [[[a c1] l] |]; reflexivity.
Qed.

Lemma modify_bind {A : Type} (f : core World -> core World)
    (k : unit -> M (core World) A) c :
  (modify f ≫= k) c = k tt (f c).
Proof.
  unfold mbind, M_bind, bind, modify. destruct (k tt (f c)) as [[[a c1] l] |]; reflexivity.
Qed.

Lemma bind_cong {A B : Type} (m m' : M (core World) A) (k : A -> M (core World) B) c c0 :
  m c = m' c0 -> (m ≫= k) c = (m' ≫= k) c0.
Proof. unfold mbind, M_bind, bind. intros ->. reflexivity. Qed.

Lemma tx_packet_run c drv :
  driver (device c) = Some drv ->
  writes_in_full drv ->
  exists c',
    tx_packet c
    = Some (tt, c',
            [hw_ep_write EP0_IN (data_ptr (st c))
               (Z.min (data_count (st c)) (ep0size (st c)))]) /\
    driver (device c') = Some drv /\
    ep0size (st c') = ep0size (st c) /\
    data_count (st c') = data_count (st c) - Z.min (data_count (st c)) (ep0size (st c)) /\
    control_state (st c') =
      (if control_state (st c) =? usbd_ctl_ztxdata
       then (if Z.min (data_count (st c)) (ep0size (st c)) =? 0
             then usbd_ctl_lastdata else usbd_ctl_ztxdata)
       else (if data_count (st c) - Z.min (data_count (st c)) (ep0size (st c)) =? 0
             then usbd_ctl_lastdata else usbd_ctl_txdata)).
Proof.
  intros Hd Hfull. unfold tx_packet. rewrite get_bind. cbv zeta.
  unfold hw_write, lift, the_driver, invoke, modify, mbind, M_bind, bind.
  unfold device in Hd. rewrite Hd.
  pose proof (Hfull (data_ptr (st c)) (Z.min (data_count (st c)) (ep0size (st c)))
                (world (sys c))) as Hn.
  destruct (ep_write drv EP0_IN (data_ptr (st c))
              (Z.min (data_count (st c)) (ep0size (st c))) (world (sys c))) as [r w].
  simpl in Hn. subst r. rewrite Z.eqb_refl. simpl.
  eexists. split; [reflexivity |]. core_simpl. rewrite Hd. repeat split.
Qed.

(** Whatever the driver does, a packet either is written in full and the
    stage advances, or the transfer is aborted. *)
Lemma tx_packet_cases c u c' l :
  tx_packet c = Some (u, c', l) ->
  (l = [hw_ep_write EP0_IN (data_ptr (st c))
          (Z.min (data_count (st c)) (ep0size (st c)))] /\
   ep0size (st c') = ep0size (st c) /\
   data_count (st c') = data_count (st c) - Z.min (data_count (st c)) (ep0size (st c)) /\
   control_state (st c') =
     (if control_state (st c) =? usbd_ctl_ztxdata
      then (if Z.min (data_count (st c)) (ep0size (st c)) =? 0
            then usbd_ctl_lastdata else usbd_ctl_ztxdata)
      else (if data_count (st c) - Z.min (data_count (st c)) (ep0size (st c)) =? 0
            then usbd_ctl_lastdata else usbd_ctl_txdata))) \/
  (control_state (st c') = usbd_ctl_idle /\ ep0size (st c') = ep0size (st c)).
Proof.
  unfold tx_packet. intros H.
  binv H as c0 c1 l0 l1 Hg. ginv Hg. cbv zeta in H.
  binv H as r c2 l2 l3 Hw. apply hw_write_inv in Hw as (-> & Hf).
  pose proof (frame_st _ _ Hf) as Hst.
  mcase.
  - right. unfold stall_pid in H. binv H as u1 c3 l4 l5 Hs.
    apply hw_stall_inv in Hs as (-> & Hf3). pose proof (frame_st _ _ Hf3) as Hst3.
    apply modify_inv in H as (-> & ->). core_simpl. rewrite Hst3, Hst. auto.
  - left. apply modify_inv in H as (-> & ->). core_simpl. rewrite Hst.
    repeat split.
Qed.

(** A packet that the driver does not take in full aborts the transfer. *)
Lemma tx_packet_short c drv u c' l :
  driver (device c) = Some drv ->
  fst (ep_write drv EP0_IN (data_ptr (st c))
         (Z.min (data_count (st c)) (ep0size (st c))) (world (sys c)))
  <> Z.min (data_count (st c)) (ep0size (st c)) ->
  tx_packet c = Some (u, c', l) ->
  control_state (st c') = usbd_ctl_idle /\ ep0size (st c') = ep0size (st c) /\
  pending_address c' = None /\
  l = [hw_ep_write EP0_IN (data_ptr (st c)) (Z.min (data_count (st c)) (ep0size (st c)));
       hw_ep_setstall EP0_OUT true].
Proof.
  intros Hd Hshort H. unfold tx_packet in H. rewrite get_bind in H. cbv zeta in H.
  apply bind_inv in H as (r & c2 & l2 & l3 & Hw & H & ->).
  pose proof Hw as Hw'. apply hw_write_inv in Hw' as (-> & Hf).
  pose proof (frame_st _ _ Hf) as Hst.
  assert (Hr : (r =? Z.min (data_count (st c)) (ep0size (st c))) = false).
  { apply Z.eqb_neq. intros ->. apply Hshort.
    unfold hw_write, lift, the_driver, invoke, mbind, M_bind, bind in Hw.
    unfold device in Hd. rewrite Hd in Hw.
    destruct (ep_write drv EP0_IN (data_ptr (st c))
                (Z.min (data_count (st c)) (ep0size (st c))) (world (sys c))) as [r w].
    inversion Hw. reflexivity. }
  rewrite Hr in H. simpl in H. unfold stall_pid in H.
  apply bind_inv in H as (u1 & c3 & l4 & l5 & Hs & H & ->).
  apply hw_stall_inv in Hs as (-> & Hf3). pose proof (frame_st _ _ Hf3) as Hst3.
  apply modify_inv in H as (-> & ->). core_simpl. rewrite Hst3, Hst. auto.
Qed.

Lemma react_eptx_ep0 c :
  react env (Event usbd_evt_eptx EP0_IN) c = process_eptx env c.
Proof. reflexivity. Qed.

Lemma eptx_in_data c :
  control_state (st c) = usbd_ctl_txdata \/ control_state (st c) = usbd_ctl_ztxdata ->
  react env (Event usbd_evt_eptx EP0_IN) c = tx_packet c.
Proof.
  intros Hs. rewrite react_eptx_ep0. unfold process_eptx. rewrite get_bind.
  destruct Hs as [-> | ->]; reflexivity.
Qed.

Lemma eptx_after_last c :
  control_state (st c) = usbd_ctl_lastdata ->
  react env (Event usbd_evt_eptx EP0_IN) c
  = Some (tt, set_control_state usbd_ctl_statusout c, []).
Proof.
  intros Hs. rewrite react_eptx_ep0. unfold process_eptx. rewrite get_bind.
  rewrite Hs. reflexivity.
Qed.

Lemma tx_until_statusout_step fuel c :
  control_state (st c) <> usbd_ctl_statusout ->
  tx_until_statusout env (S fuel) c
  = (react env (Event usbd_evt_eptx EP0_IN) ;; tx_until_statusout env fuel) c.
Proof.
  intros Hs. simpl. rewrite get_bind.
  apply Z.eqb_neq in Hs. rewrite Hs. reflexivity.
Qed.

(** From a last packet that has been queued, one more TX event reaches the
    STATUS-OUT stage. *)
Lemma drain_lastdata c :
  control_state (st c) = usbd_ctl_lastdata ->
  tx_until_statusout env 1 c = Some (tt, set_control_state usbd_ctl_statusout c, []).
Proof.
  intros Hs. rewrite tx_until_statusout_step by (rewrite Hs; discriminate).
  erewrite bind_run; [| apply eptx_after_last; exact Hs | reflexivity]. reflexivity.
Qed.

(** Without a pending zero-length packet: the remaining bytes go out in
    packets that are never empty. *)
Lemma drain_txdata drv (Hfull : writes_in_full drv) (k : nat) : forall c,
  driver (device c) = Some drv ->
  control_state (st c) = usbd_ctl_txdata ->
  0 < ep0size (st c) ->
  0 < data_count (st c) <= Z.of_nat k ->
  exists fuel c' l,
    tx_until_statusout env (S fuel) c = Some (tt, c', l) /\
    control_state (st c') = usbd_ctl_statusout /\
    zlp_count l = 0%nat /\
    bytes_written l = data_count (st c).
Proof.
  induction k as [| k IH]; intros c Hd Hs He Hc; [lia |].
  destruct (tx_packet_run c drv Hd Hfull) as (c1 & Hrun & Hd1 & He1 & Hc1 & Hs1).
  rewrite Hs in Hs1. change (usbd_ctl_txdata =? usbd_ctl_ztxdata) with false in Hs1.
  set (n := Z.min (data_count (st c)) (ep0size (st c))) in *.
  assert (Hn : 0 < n) by (unfold n; lia).
  destruct (data_count (st c) - n =? 0) eqn:Hz.
  - (* that was the last packet *)
    apply Z.eqb_eq in Hz.
    exists 1%nat, (set_control_state usbd_ctl_statusout c1),
      ([hw_ep_write EP0_IN (data_ptr (st c)) n] ++ []).
    split.
    + rewrite tx_until_statusout_step by (rewrite Hs; discriminate).
      eapply bind_run; [rewrite eptx_in_data by auto; exact Hrun |].
      apply drain_lastdata. exact Hs1.
    + split; [reflexivity |]. simpl.
      destruct (n =? 0) eqn:Hn0; [apply Z.eqb_eq in Hn0; lia |]. split; [reflexivity | lia].
  - apply Z.eqb_neq in Hz.
    destruct (IH c1 Hd1 Hs1) as (fuel & c2 & l & Hdr & Hs2 & Hzl & Hb); [lia | lia |].
    exists (S fuel), c2, ([hw_ep_write EP0_IN (data_ptr (st c)) n] ++ l).
    split.
    + rewrite tx_until_statusout_step by (rewrite Hs; discriminate).
      eapply bind_run; [rewrite eptx_in_data by auto; exact Hrun | exact Hdr].
    + split; [exact Hs2 |]. simpl.
      destruct (n =? 0) eqn:Hn0; [apply Z.eqb_eq in Hn0; lia |]. split; [exact Hzl | lia].
Qed.

(** With a pending zero-length packet: the remaining bytes, a whole number
    of full packets, go out and one empty packet follows them. *)
Lemma drain_ztxdata drv (Hfull : writes_in_full drv) (k : nat) : forall c,
  driver (device c) = Some drv ->
  control_state (st c) = usbd_ctl_ztxdata ->
  0 < ep0size (st c) ->
  0 <= data_count (st c) <= Z.of_nat k ->
  data_count (st c) mod ep0size (st c) = 0 ->
  exists fuel c' l,
    tx_until_statusout env (S fuel) c = Some (tt, c', l) /\
    control_state (st c') = usbd_ctl_statusout /\
    zlp_count l = 1%nat /\
    bytes_written l = data_count (st c).
Proof.
  induction k as [| k IH]; intros c Hd Hs He Hc Hm;
    destruct (tx_packet_run c drv Hd Hfull) as (c1 & Hrun & Hd1 & He1 & Hc1 & Hs1);
    rewrite Hs in Hs1; change (usbd_ctl_ztxdata =? usbd_ctl_ztxdata) with true in Hs1;
    set (n := Z.min (data_count (st c)) (ep0size (st c))) in *.
  - (* nothing remains: the empty packet *)
    assert (Hn : n = 0) by (unfold n; lia). rewrite Hn in *.
    exists 1%nat, (set_control_state usbd_ctl_statusout c1),
      ([hw_ep_write EP0_IN (data_ptr (st c)) 0] ++ []).
    split.
    + rewrite tx_until_statusout_step by (rewrite Hs; discriminate).
      eapply bind_run; [rewrite eptx_in_data by auto; exact Hrun |].
      apply drain_lastdata. exact Hs1.
    + split; [reflexivity |]. simpl. split; [reflexivity | lia].
  - destruct (Z.eq_dec (data_count (st c)) 0) as [Hc0 | Hc0].
    + assert (Hn : n = 0) by (unfold n; lia). rewrite Hn in *.
      exists 1%nat, (set_control_state usbd_ctl_statusout c1),
        ([hw_ep_write EP0_IN (data_ptr (st c)) 0] ++ []).
      split.
      * rewrite tx_until_statusout_step by (rewrite Hs; discriminate).
        eapply bind_run; [rewrite eptx_in_data by auto; exact Hrun |].
        apply drain_lastdata. exact Hs1.
      * split; [reflexivity |]. simpl. split; [reflexivity | lia].
    + (* a full packet *)
      assert (Hge : ep0size (st c) <= data_count (st c)).
      { apply Z.mod_divide in Hm; [| lia]. destruct Hm as [q Hq].
        assert (0 < q) by nia. nia. }
      assert (Hn : n = ep0size (st c)) by (unfold n; lia).
      destruct (n =? 0) eqn:Hn0; [apply Z.eqb_eq in Hn0; lia |].
      destruct (IH c1 Hd1 Hs1) as (fuel & c2 & l & Hdr & Hs2 & Hzl & Hb); [lia | lia | |].
      { rewrite Hc1, He1, Hn.
        replace (data_count (st c) - ep0size (st c))
          with (data_count (st c) + (-1) * ep0size (st c)) by lia.
        rewrite Z.mod_add by lia. exact Hm. }
      exists (S fuel), c2, ([hw_ep_write EP0_IN (data_ptr (st c)) n] ++ l).
      split.
      * rewrite tx_until_statusout_step by (rewrite Hs; discriminate).
        eapply bind_run; [rewrite eptx_in_data by auto; exact Hrun | exact Hdr].
      * split; [exact Hs2 |]. simpl. rewrite Hn0. split; [exact Hzl | lia].
Qed.

(** Entry into the stage: the first packet is the first step of the drain. *)
Lemma begin_tx_run fuel c :
  let need_zlp := (data_count (st c) <? wLength (request c))
                  && (data_count (st c) mod ep0size (st c) =? 0) in
  let c0 := if need_zlp then set_control_state usbd_ctl_ztxdata c
            else set_control_state usbd_ctl_txdata
                   (set_cursor (data_ptr (st c))
                      (Z.min (data_count (st c)) (wLength (request c))) c) in
  (begin_tx ;; tx_until_statusout env fuel) c = tx_until_statusout env (S fuel) c0.
Proof.
  intros need_zlp c0.
  assert (Hs : control_state (st c0) = usbd_ctl_txdata \/
               control_state (st c0) = usbd_ctl_ztxdata)
    by (unfold c0; destruct need_zlp; auto).
  rewrite tx_until_statusout_step by (destruct Hs as [-> | ->]; discriminate).
  apply bind_cong. rewrite eptx_in_data by exact Hs.
  unfold begin_tx. rewrite get_bind. unfold c0. fold need_zlp.
  destruct need_zlp; rewrite modify_bind; reflexivity.
Qed.

(** An accepted request with a response to send enters the DATA-IN stage. *)
Lemma handle_request_data_in c c1 l0 u c2 l :
  process_request env
    (set_busy false (set_cursor (data_buf (st c) + 8) (data_maxsize (st c)) c))
  = Some (usbd_ack, c1, l0) ->
  dev_to_host (request c1) = true ->
  wLength (request c1) <> 0 ->
  begin_tx c1 = Some (u, c2, l) ->
  handle_request env c = Some (u, c2, l0 ++ l).
Proof.
  intros Hreq Hdir Hlen Hb. unfold handle_request. rewrite modify_bind.
  eapply bind_run; [exact Hreq |]. rewrite get_bind.
  change (usbd_ack =? usbd_ack) with true. cbv iota.
  rewrite Hdir. apply Z.eqb_neq in Hlen. rewrite Hlen. exact Hb.
Qed.

(** C6: in every [usbd_poll], the driver's [setaddr] is called only in a
    moment that completes the STATUS stage of a control transfer whose
    request is SET_ADDRESS, with the address of that request, as the last
    call of the moment, after which the machine is idle; it is never called
    before.  The STATUS-IN stage is entered only once the driver has taken
    the zero-length packet that acknowledges the request, and every
    completion of the STATUS stage of such a transfer makes the call, unless
    it is a STATUS-OUT stage whose packet cannot be read: then endpoint 0 is
    stalled and the address dropped. *)
Theorem usbd_poll_setaddr_deferred (c c' : core World) (l : list call) :
  pending_inv c ->
  usbd_poll env c = Some (tt, c', l) ->
  pending_inv c' /\
  exists ms,
    poll_moments env c = Some ms /\
    Forall deferred_setaddr ms /\
    Forall request_kept ms /\
    (forall a, In (hw_setaddr a) l ->
       exists m, In m ms /\ In (hw_setaddr a) (calls m)).
Proof.
  intros Hinv H. unfold usbd_poll in H.
  binv H as u0 c0 l0 l1 Hr.
  binv H as evts c1 l2 l3 He.
  pose proof He as He'. apply hw_events_inv in He' as (-> & Hf).
  destruct (react_spec _ _ _ _ _ Hinv Hr) as (Hinv0 & Hd0).
  assert (Hinv1 : pending_inv c1)
    by (eapply pending_inv_same; [exact Hinv0 | apply frame_same_transfer; exact Hf]).
  destruct (react_all_moments _ _ _ _ _ H) as (ms & Hm & -> & Hk).
  split; [apply Hk; exact Hinv1 |].
  exists ({| before := c; cause := Retry; calls := l0; after := c0 |} :: ms).
  unfold poll_moments. rewrite Hr, He, Hm. split; [reflexivity |]. split.
  - constructor; [exact Hd0 | eapply moments_spec; eauto].
  - split.
    { constructor; [eapply react_keeps_request; eauto | eapply moments_keep_request; eauto]. }
    intros a Hin. apply in_app_or in Hin as [Hin | Hin].
    + eexists. split; [left; reflexivity | exact Hin].
    + destruct Hin as [Heq | Hin]; [discriminate |]. simpl in Hin.
      apply in_concat in Hin as (lm & Hlm & Hin).
      apply in_map_iff in Hlm as (m & <- & Hm').
      exists m. split; [right; exact Hm' | exact Hin].
Qed.

(** The converse: the presentation of an accepted request with a response
    to send is the entry into the DATA-IN stage and nothing else. *)
Lemma handle_request_data_in_inv c c1 l0 u c2 l :
  process_request env
    (set_busy false (set_cursor (data_buf (st c) + 8) (data_maxsize (st c)) c))
  = Some (usbd_ack, c1, l0) ->
  dev_to_host (request c1) = true ->
  wLength (request c1) <> 0 ->
  handle_request env c = Some (u, c2, l) ->
  exists lb, begin_tx c1 = Some (u, c2, lb) /\ l = l0 ++ lb.
Proof.
  intros Hreq Hdir Hlen H. unfold handle_request in H. rewrite modify_bind in H.
  apply bind_inv in H as (r & c1' & l1 & l2 & Hp & H & ->).
  rewrite Hreq in Hp. inversion Hp; subst r c1' l1. clear Hp.
  rewrite get_bind in H. change (usbd_ack =? usbd_ack) with true in H. cbv iota in H.
  rewrite Hdir in H. apply Z.eqb_neq in Hlen. rewrite Hlen in H.
  exists l2. split; [exact H | reflexivity].
Qed.

(** Once in the STATUS-OUT stage no further TX event is fed. *)
Lemma drain_at_statusout fuel c :
  control_state (st c) = usbd_ctl_statusout ->
  tx_until_statusout env fuel c = Some (tt, c, []).
Proof.
  intros Hs. destruct fuel as [| fuel]; [reflexivity |].
  simpl. rewrite get_bind, Hs. reflexivity.
Qed.

(** An aborted transfer stays aborted: a TX event in the idle state only
    stalls the endpoint again. *)
Lemma eptx_idle c u c' l :
  control_state (st c) = usbd_ctl_idle ->
  react env (Event usbd_evt_eptx EP0_IN) c = Some (u, c', l) ->
  control_state (st c') = usbd_ctl_idle.
Proof.
  intros Hs H. rewrite react_eptx_ep0 in H. unfold process_eptx in H.
  rewrite get_bind, Hs in H.
  change (stall_pid c = Some (u, c', l)) in H. unfold stall_pid in H.
  apply bind_inv in H as (u1 & c3 & l4 & l5 & Hst & H & ->).
  apply modify_inv in H as (-> & ->). reflexivity.
Qed.

(** Whatever the driver does, a run of the DATA-IN stage that ends in the
    STATUS-OUT stage has written every packet in full: the remaining bytes,
    and one empty packet exactly when one was pending. *)
Lemma drain_sound (fuel : nat) : forall c c2 l,
  0 < ep0size (st c) ->
  tx_until_statusout env fuel c = Some (tt, c2, l) ->
  control_state (st c2) = usbd_ctl_statusout ->
  (control_state (st c) = usbd_ctl_txdata -> 0 < data_count (st c) ->
     zlp_count l = 0%nat /\ bytes_written l = data_count (st c)) /\
  (control_state (st c) = usbd_ctl_ztxdata -> 0 <= data_count (st c) ->
     zlp_count l = 1%nat /\ bytes_written l = data_count (st c)) /\
  (control_state (st c) = usbd_ctl_lastdata ->
     zlp_count l = 0%nat /\ bytes_written l = 0) /\
  (control_state (st c) = usbd_ctl_idle -> False).
Proof.
  induction fuel as [| fuel IH]; intros c c2 l He H Hs2.
  { apply ret_inv in H as (_ & -> & ->).
    split; [| split; [| split]]; intros Hs; rewrite Hs in Hs2; discriminate. }
  assert (Hstep : control_state (st c) <> usbd_ctl_statusout ->
            exists u c1 l1 l2,
              react env (Event usbd_evt_eptx EP0_IN) c = Some (u, c1, l1) /\
              tx_until_statusout env fuel c1 = Some (tt, c2, l2) /\ l = l1 ++ l2).
  { intros Hne. rewrite tx_until_statusout_step in H by exact Hne.
    apply bind_inv in H as (u & c1 & l1 & l2 & Hr & Hd & ->). eauto 8. }
  split; [| split; [| split]]; intros Hs.
  - (* more data, no empty packet pending *)
    intros Hc.
    destruct Hstep as (u & c1 & l1 & l2 & Hr & Hd & ->); [rewrite Hs; discriminate |].
    rewrite eptx_in_data in Hr by auto.
    apply tx_packet_cases in Hr as [(-> & He1 & Hc1 & Hs1) | (Hs1 & He1)].
    + rewrite Hs in Hs1. change (usbd_ctl_txdata =? usbd_ctl_ztxdata) with false in Hs1.
      set (n := Z.min (data_count (st c)) (ep0size (st c))) in *.
      assert (Hn : 0 < n) by (unfold n; lia).
      assert (Hn0 : (n =? 0) = false) by (apply Z.eqb_neq; lia).
      destruct (IH c1 c2 l2) as (Htx & _ & Hlast & _); [lia | exact Hd | exact Hs2 |].
      simpl. rewrite Hn0.
      destruct (data_count (st c) - n =? 0) eqn:Hz.
      * apply Z.eqb_eq in Hz. destruct (Hlast Hs1) as (Hzl & Hb). split; [exact Hzl | lia].
      * apply Z.eqb_neq in Hz. destruct (Htx Hs1) as (Hzl & Hb); [unfold n in *; lia |].
        split; [exact Hzl | lia].
    + destruct (IH c1 c2 l2) as (_ & _ & _ & Hidle); [lia | exact Hd | exact Hs2 |].
      destruct (Hidle Hs1).
  - (* an empty packet is pending *)
    intros Hc.
    destruct Hstep as (u & c1 & l1 & l2 & Hr & Hd & ->); [rewrite Hs; discriminate |].
    rewrite eptx_in_data in Hr by auto.
    apply tx_packet_cases in Hr as [(-> & He1 & Hc1 & Hs1) | (Hs1 & He1)].
    + rewrite Hs in Hs1. change (usbd_ctl_ztxdata =? usbd_ctl_ztxdata) with true in Hs1.
      set (n := Z.min (data_count (st c)) (ep0size (st c))) in *.
      destruct (IH c1 c2 l2) as (_ & Hztx & Hlast & _); [lia | exact Hd | exact Hs2 |].
      simpl.
      destruct (n =? 0) eqn:Hn0.
      * apply Z.eqb_eq in Hn0. destruct (Hlast Hs1) as (Hzl & Hb).
        split; [rewrite Hzl; reflexivity | unfold n in *; lia].
      * apply Z.eqb_neq in Hn0. destruct (Hztx Hs1) as (Hzl & Hb); [unfold n in *; lia |].
        split; [exact Hzl | lia].
    + destruct (IH c1 c2 l2) as (_ & _ & _ & Hidle); [lia | exact Hd | exact Hs2 |].
      destruct (Hidle Hs1).
  - (* the last packet has been queued *)
    destruct Hstep as (u & c1 & l1 & l2 & Hr & Hd & ->); [rewrite Hs; discriminate |].
    rewrite eptx_after_last in Hr by exact Hs. inversion Hr; subst u c1 l1.
    rewrite drain_at_statusout in Hd by reflexivity. inversion Hd; subst.
    split; reflexivity.
  - (* the transfer was aborted *)
    destruct Hstep as (u & c1 & l1 & l2 & Hr & Hd & ->); [rewrite Hs; discriminate |].
    pose proof (eptx_idle _ _ _ _ Hs Hr) as Hs1.
    assert (He1 : ep0size (st c1) = ep0size (st c)).
    { rewrite react_eptx_ep0 in Hr. unfold process_eptx in Hr.
      rewrite get_bind, Hs in Hr.
      change (stall_pid c = Some (u, c1, l1)) in Hr. unfold stall_pid in Hr.
      apply bind_inv in Hr as (u1 & c3 & l4 & l5 & Hst & Hr & ->).
      apply hw_stall_inv in Hst as (_ & Hf). pose proof (frame_st _ _ Hf) as Hst3.
      apply modify_inv in Hr as (-> & ->). core_simpl. rewrite Hst3. reflexivity. }
    destruct (IH c1 c2 l2) as (_ & _ & _ & Hidle); [lia | exact Hd | exact Hs2 |].
    exact (Hidle Hs1).
Qed.

(** C7: when the chain accepts a device-to-host request with [wLength > 0]
    and a response of [L] bytes, every run that feeds TX events to the core
    and ends in the STATUS-OUT stage has, among the calls made from the
    presentation of the request until then, exactly one zero-length packet
    written to endpoint 0 if and only if [L] is a multiple of the packet
    size of endpoint 0 and less than [wLength]; there is none when [L] is
    not a multiple of the packet size, and [min L wLength] bytes are written
    in all, each packet having been taken in full by the driver.  With a
    driver that takes every packet in full, TX events do take the machine to
    the STATUS-OUT stage; with a driver that takes no packet in full, the
    first packet aborts the transfer and no TX event reaches that stage. *)
Theorem data_in_zero_length_packet (c c1 : core World) (l0 : list call) :
  process_request env
    (set_busy false (set_cursor (data_buf (st c) + 8) (data_maxsize (st c)) c))
  = Some (usbd_ack, c1, l0) ->
  dev_to_host (request c1) = true ->
  0 < wLength (request c1) ->
  0 < ep0size (st c1) ->
  0 <= data_count (st c1) ->
  (forall fuel c2 l,
     (handle_request env ;; tx_until_statusout env fuel) c = Some (tt, c2, l) ->
     control_state (st c2) = usbd_ctl_statusout ->
     (zlp_count l = 1%nat <->
        data_count (st c1) mod ep0size (st c1) = 0 /\
        data_count (st c1) < wLength (request c1)) /\
     (data_count (st c1) mod ep0size (st c1) <> 0 -> zlp_count l = 0%nat) /\
     (zlp_count l <= 1)%nat /\
     bytes_written l = Z.min (data_count (st c1)) (wLength (request c1))) /\
  (forall drv,
     driver (device c1) = Some drv ->
     writes_in_full drv ->
     exists fuel c2 l,
       (handle_request env ;; tx_until_statusout env fuel) c = Some (tt, c2, l) /\
       control_state (st c2) = usbd_ctl_statusout) /\
  (forall drv,
     driver (device c1) = Some drv ->
     (forall buf n w, fst (ep_write drv EP0_IN buf n w) <> n) ->
     forall fuel c2 l,
       (handle_request env ;; tx_until_statusout env fuel) c = Some (tt, c2, l) ->
       control_state (st c2) <> usbd_ctl_statusout).
Proof.
  intros Hreq Hdir Hw He Hc.
  pose proof begin_tx_run as Hbegin. cbv zeta in Hbegin.
  set (L := data_count (st c1)) in *. set (W := wLength (request c1)) in *.
  set (E := ep0size (st c1)) in *.
  destruct (process_request_writes _ _ _ _ Hreq) as (Hz0 & Hb0).
  split; [| split].
  - (* every run that ends in STATUS-OUT *)
    intros fuel c2 l Hrun Hs.
    apply bind_inv in Hrun as (u & cb & lh & ld & Hh & Hdr & ->).
    destruct (handle_request_data_in_inv _ _ _ _ _ _ Hreq Hdir ltac:(fold W; lia) Hh)
      as (lb & Hbt & ->).
    assert (Hall : (begin_tx ;; tx_until_statusout env fuel) c1 = Some (tt, c2, lb ++ ld))
      by (eapply bind_run; eauto).
    rewrite Hbegin in Hall. fold L W E in Hall.
    assert (Hres : zlp_count (lb ++ ld)
                   = (if (L <? W) && (L mod E =? 0) then 1%nat else 0%nat) /\
                   bytes_written (lb ++ ld) = Z.min L W).
    { destruct ((L <? W) && (L mod E =? 0)) eqn:Hz.
      - apply andb_true_iff in Hz as (Hlt & Hmod). apply Z.ltb_lt in Hlt.
        destruct (drain_sound (S fuel) (set_control_state usbd_ctl_ztxdata c1) c2 (lb ++ ld)
                    He Hall Hs) as (_ & Hztx & _).
        destruct (Hztx eq_refl Hc) as (Hzl & Hb).
        change (bytes_written (lb ++ ld) = L) in Hb. split; [exact Hzl | lia].
      - assert (Hpos : 0 < Z.min L W).
        { apply andb_false_iff in Hz as [Hge | Hmod].
          - apply Z.ltb_ge in Hge. lia.
          - apply Z.eqb_neq in Hmod.
            assert (L <> 0) by (intros ->; apply Hmod; apply Z.mod_0_l; lia). lia. }
        destruct (drain_sound (S fuel)
                    (set_control_state usbd_ctl_txdata
                       (set_cursor (data_ptr (st c1)) (Z.min L W) c1)) c2 (lb ++ ld)
                    He Hall Hs) as (Htx & _).
        destruct (Htx eq_refl Hpos) as (Hzl & Hb). split; [exact Hzl | exact Hb]. }
    destruct Hres as (Hzl & Hb).
    rewrite <- app_assoc, zlp_count_app, bytes_written_app, Hz0, Hb0, Hzl, Hb. simpl.
    destruct (L <? W) eqn:Hlt; destruct (L mod E =? 0) eqn:Hmod; simpl;
      rewrite ?Z.ltb_lt, ?Z.ltb_ge in Hlt; rewrite ?Z.eqb_eq, ?Z.eqb_neq in Hmod;
      repeat split; try lia; try congruence; try tauto; try discriminate;
      intros; try lia; try tauto.
  - (* a driver that takes every packet in full *)
    intros drv Hd Hfull.
    assert (Hdrain : exists fuel c2 l,
              (begin_tx ;; tx_until_statusout env fuel) c1 = Some (tt, c2, l) /\
              control_state (st c2) = usbd_ctl_statusout).
    { destruct ((L <? W) && (L mod E =? 0)) eqn:Hz.
      - apply andb_true_iff in Hz as (Hlt & Hmod).
        apply Z.ltb_lt in Hlt. apply Z.eqb_eq in Hmod.
        destruct (drain_ztxdata drv Hfull (Z.to_nat L)
                    (set_control_state usbd_ctl_ztxdata c1))
          as (fuel & c2 & l & Hrun & Hs & _); auto.
        { change (0 <= L <= Z.of_nat (Z.to_nat L)). lia. }
        exists fuel, c2, l. rewrite Hbegin. fold L W E.
        apply Z.ltb_lt in Hlt. apply Z.eqb_eq in Hmod. rewrite Hlt, Hmod. simpl.
        split; auto.
      - assert (Hpos : 0 < Z.min L W).
        { apply andb_false_iff in Hz as [Hge | Hmod].
          - apply Z.ltb_ge in Hge. lia.
          - apply Z.eqb_neq in Hmod.
            assert (L <> 0) by (intros ->; apply Hmod; apply Z.mod_0_l; lia). lia. }
        destruct (drain_txdata drv Hfull (Z.to_nat (Z.min L W))
                    (set_control_state usbd_ctl_txdata
                       (set_cursor (data_ptr (st c1)) (Z.min L W) c1)))
          as (fuel & c2 & l & Hrun & Hs & _); auto.
        { change (0 < Z.min L W <= Z.of_nat (Z.to_nat (Z.min L W))). lia. }
        exists fuel, c2, l. rewrite Hbegin. fold L W E. rewrite Hz.
        split; auto. }
    destruct Hdrain as (fuel & c2 & l & Hrun & Hs).
    apply bind_inv in Hrun as (u & cb & lb & ld & Hbt & Hdr & ->).
    destruct u.
    exists fuel, c2, (l0 ++ lb ++ ld). split; [| exact Hs].
    rewrite app_assoc. eapply bind_run; [| exact Hdr].
    eapply handle_request_data_in; eauto. fold W. lia.
  - (* a driver that takes no packet in full *)
    intros drv Hd Hnever fuel c2 l Hrun Hs.
    apply bind_inv in Hrun as (u & cb & lh & ld & Hh & Hdr & ->).
    destruct (handle_request_data_in_inv _ _ _ _ _ _ Hreq Hdir ltac:(fold W; lia) Hh)
      as (lb & Hbt & ->).
    unfold begin_tx in Hbt. rewrite get_bind in Hbt.
    apply bind_inv in Hbt as (u1 & c0 & la & lb' & Hm & Htx & ->).
    assert (Hc0 : driver (device c0) = Some drv /\ ep0size (st c0) = E).
    { destruct ((data_count (st c1) <? wLength (request c1))
                && (data_count (st c1) mod ep0size (st c1) =? 0));
        apply modify_inv in Hm as (-> & _); split; [exact Hd | reflexivity | exact Hd | reflexivity]. }
    destruct Hc0 as (Hd0 & He0).
    apply (tx_packet_short c0 drv) in Htx as (Hidle & Hsize & _); [| exact Hd0 | apply Hnever].
    destruct (drain_sound fuel cb c2 ld) as (_ & _ & _ & Hi);
      [rewrite Hsize, He0; exact He | exact Hdr | exact Hs |].
    exact (Hi Hidle).
Qed.

End MachineProperties.

Lemma usbd_poll_setaddr_deferred_witness :
  pending_inv awaiting_status /\
  usbd_poll (fixed_application set_address_5 declines) awaiting_status
  = Some (tt, addressed, [hw_poll; hw_setaddr 5]) /\
  pending_inv addressed /\
  exists ms,
    poll_moments (fixed_application set_address_5 declines) awaiting_status = Some ms /\
    Forall deferred_setaddr ms /\
    Forall request_kept ms /\
    (forall a, In (hw_setaddr a) [hw_poll; hw_setaddr 5] ->
       exists m, In m ms /\ In (hw_setaddr a) (calls m)).
Proof.
  assert (Hinv : pending_inv awaiting_status).
  { intros a Ha. vm_compute in Ha. inversion Ha; subst a.
    split; [reflexivity |]. split; [| repeat split].
    right. right. right. left. reflexivity. }
  assert (Hrun : usbd_poll (fixed_application set_address_5 declines) awaiting_status
                 = Some (tt, addressed, [hw_poll; hw_setaddr 5])) by reflexivity.
  split; [exact Hinv |]. split; [exact Hrun |].
  exact (usbd_poll_setaddr_deferred (fixed_application set_address_5 declines)
           awaiting_status addressed [hw_poll; hw_setaddr 5] Hinv Hrun).
Defined.

Lemma scripted_driver_writes_in_full : writes_in_full scripted_driver.
Proof. intros buf n w. reflexivity. Qed.

Lemma data_in_zero_length_packet_witness :
  process_request (fixed_application vendor_read_255 (answers 128))
    (set_busy false
       (set_cursor (data_buf (st vendor_read_core) + 8)
          (data_maxsize (st vendor_read_core)) vendor_read_core))
  = Some (usbd_ack, vendor_read_accepted, [cb_control 0x08000400]) /\
  driver (device vendor_read_accepted) = Some scripted_driver /\
  dev_to_host (request vendor_read_accepted) = true /\
  wLength (request vendor_read_accepted) = 255 /\
  ep0size (st vendor_read_accepted) = 64 /\
  data_count (st vendor_read_accepted) = 128 /\
  exists fuel c2 l,
    (handle_request (fixed_application vendor_read_255 (answers 128)) ;;
     tx_until_statusout (fixed_application vendor_read_255 (answers 128)) fuel)
      vendor_read_core
    = Some (tt, c2, l) /\
    control_state (st c2) = usbd_ctl_statusout /\
    zlp_count l = 1%nat /\
    bytes_written l = 128.
Proof.
  assert (Hreq : process_request (fixed_application vendor_read_255 (answers 128))
                   (set_busy false
                      (set_cursor (data_buf (st vendor_read_core) + 8)
                         (data_maxsize (st vendor_read_core)) vendor_read_core))
                 = Some (usbd_ack, vendor_read_accepted, [cb_control 0x08000400]))
    by reflexivity.
  split; [exact Hreq |]. repeat (split; [reflexivity |]).
  assert (Hlen : 0 < wLength (request vendor_read_accepted)) by reflexivity.
  assert (Hsize : 0 < ep0size (st vendor_read_accepted)) by reflexivity.
  assert (Hcount : 0 <= data_count (st vendor_read_accepted)) by discriminate.
  destruct (data_in_zero_length_packet (fixed_application vendor_read_255 (answers 128))
              vendor_read_core vendor_read_accepted [cb_control 0x08000400]
              Hreq eq_refl Hlen Hsize Hcount)
    as (Hsound & Hreach & _).
  destruct (Hreach scripted_driver eq_refl scripted_driver_writes_in_full)
    as (fuel & c2 & l & Hrun & Hs).
  destruct (Hsound fuel c2 l Hrun Hs) as (Hiff & _ & _ & Hb).
  exists fuel, c2, l. split; [exact Hrun |]. split; [exact Hs |]. split; [| exact Hb].
  apply Hiff. split; reflexivity.
Defined.

(** ** Runs on concrete inputs *)

(** A response of 128 bytes, two full packets, to a request for 255: a
    zero-length packet ends the data stage. *)
Example vendor_read_128 :
  vendor_read_run 128
  = Some (usbd_ctl_statusout,
          [hw_poll; hw_ep_read EP0_OUT 0x20000000 8; cb_control 0x08000400;
           hw_ep_write EP0_IN 0x20001000 64; hw_ep_write EP0_IN 0x20001040 64;
           hw_ep_write EP0_IN 0x20001080 0]).
Proof. vm_compute. reflexivity. Qed.

(** A response of 100 bytes: the short second packet ends the data stage. *)
Example vendor_read_100 :
  vendor_read_run 100
  = Some (usbd_ctl_statusout,
          [hw_poll; hw_ep_read EP0_OUT 0x20000000 8; cb_control 0x08000400;
           hw_ep_write EP0_IN 0x20001000 64; hw_ep_write EP0_IN 0x20001040 36]).
Proof. vm_compute. reflexivity. Qed.

(** A response of 300 bytes is cut to the 255 bytes asked for. *)
Example vendor_read_300 :
  vendor_read_run 300
  = Some (usbd_ctl_statusout,
          [hw_poll; hw_ep_read EP0_OUT 0x20000000 8; cb_control 0x08000400;
           hw_ep_write EP0_IN 0x20001000 64; hw_ep_write EP0_IN 0x20001040 64;
           hw_ep_write EP0_IN 0x20001080 64; hw_ep_write EP0_IN 0x200010C0 63]).
Proof. vm_compute. reflexivity. Qed.

(** An empty response: the zero-length packet is the only one. *)
Example vendor_read_0 :
  vendor_read_run 0
  = Some (usbd_ctl_statusout,
          [hw_poll; hw_ep_read EP0_OUT 0x20000000 8; cb_control 0x08000400;
           hw_ep_write EP0_IN 0x20001000 0]).
Proof. vm_compute. reflexivity. Qed.

(** The poll that processes the SETUP packet of SET_ADDRESS 5 reads the
    packet and acknowledges it with a zero-length IN packet; the address is
    pending and the driver's [setaddr] has not been called. *)
Example set_address_setup_poll :
  usbd_poll (fixed_application set_address_5 declines) (fresh_core scripted_driver NULL)
  = Some (tt, awaiting_status,
          [hw_poll; hw_ep_read EP0_OUT 0x20000000 8; hw_ep_write EP0_IN 0 0]) /\
  pending_address awaiting_status = Some 5 /\
  control_state (st awaiting_status) = usbd_ctl_statusin.
Proof. vm_compute. repeat split. Qed.

(** When the driver does not take the zero-length packet that acknowledges
    SET_ADDRESS 5, endpoint 0 is stalled and the address dropped: the TX
    event of the next poll finds the machine idle, and the driver's
    [setaddr] is never called. *)
Example set_address_status_write_fails :
  two_polls (fixed_application set_address_5 declines)
    (fresh_core failing_writes_driver NULL)
  = Some (None, usbd_ctl_idle,
          [hw_poll; hw_ep_read EP0_OUT 0x20000000 8; hw_ep_write EP0_IN 0 0;
           hw_ep_setstall EP0_OUT true],
          usbd_ctl_idle,
          [hw_poll; hw_ep_setstall EP0_OUT true]).
Proof. vm_compute. reflexivity. Qed.

(** When the driver does not take the first packet of a 128-byte response,
    the transfer is aborted at once: no further packet is written and the
    machine does not reach the STATUS-OUT stage. *)
Example vendor_read_write_fails :
  two_polls (fixed_application vendor_read_255 (answers 128))
    (fresh_core failing_writes_driver 0x08000400)
  = Some (None, usbd_ctl_idle,
          [hw_poll; hw_ep_read EP0_OUT 0x20000000 8; cb_control 0x08000400;
           hw_ep_write EP0_IN 0x20001000 64; hw_ep_setstall EP0_OUT true],
          usbd_ctl_idle,
          [hw_poll; hw_ep_setstall EP0_OUT true]).
Proof. vm_compute. reflexivity. Qed.

(** * Further properties of the header *)

(** ** Results of the endpoint I/O wrappers *)

Lemma to_uint16_range (r : Z) : 0 <= to_uint16 r < 65536.
Proof. unfold to_uint16. change (2 ^ 16) with 65536. apply Z.mod_pos_bound. lia. Qed.

Lemma to_uint16_fixed (r : Z) : to_uint16 r = r <-> 0 <= r < 65536.
Proof.
  split.
  - intros <-. apply to_uint16_range.
  - intros H. unfold to_uint16. change (2 ^ 16) with 65536. apply Z.mod_small. exact H.
Qed.

(** X1: [usbd_ep_read] and [usbd_ep_write] make their one driver call and
    return a value between 0 and 65535, whatever the driver returns; the
    value is the driver's own result exactly when that result is between 0
    and 65535. *)
Theorem usbd_ep_io_result {World : Type} (d : usbd_device World)
    (drv : usbd_driver World) (w : World) (ep buf blen : Z) :
  driver d = Some drv ->
  let rr := fst (ep_read drv ep buf blen w) in
  let rw := fst (ep_write drv ep buf blen w) in
  usbd_ep_read ep buf blen {| dev := d; world := w |}
  = Some (to_uint16 rr, {| dev := d; world := snd (ep_read drv ep buf blen w) |},
          [hw_ep_read ep buf blen]) /\
  usbd_ep_write ep buf blen {| dev := d; world := w |}
  = Some (to_uint16 rw, {| dev := d; world := snd (ep_write drv ep buf blen w) |},
          [hw_ep_write ep buf blen]) /\
  0 <= to_uint16 rr < 65536 /\ 0 <= to_uint16 rw < 65536 /\
  (to_uint16 rr = rr <-> 0 <= rr < 65536) /\
  (to_uint16 rw = rw <-> 0 <= rw < 65536).
Proof.
  intros Hd rr rw. subst rr rw.
  unfold usbd_ep_read, usbd_ep_write, mbind, M_bind, bind, the_driver, invoke,
    mret, M_ret, ret.
  simpl. rewrite Hd. simpl.
  destruct (ep_read drv ep buf blen w) as [rr wr].
  destruct (ep_write drv ep buf blen w) as [rw ww]. simpl.
  split; [reflexivity |]. split; [reflexivity |].
  split; [apply to_uint16_range |]. split; [apply to_uint16_range |].
  split; apply to_uint16_fixed.
Qed.

Lemma usbd_ep_io_result_witness :
  let d := usbd_init zero_device (Some (counting_driver 8 (-1) true no_events))
             64 0x20000000 136 in
  driver d = Some (counting_driver 8 (-1) true no_events) /\
  usbd_ep_read 0x01 0x20000100 64 {| dev := d; world := 0%nat |}
  = Some (8, {| dev := d; world := 1%nat |}, [hw_ep_read 0x01 0x20000100 64]) /\
  usbd_ep_write 0x81 0x20000100 8 {| dev := d; world := 0%nat |}
  = Some (65535, {| dev := d; world := 1%nat |}, [hw_ep_write 0x81 0x20000100 8]).
Proof.
  intros d. split; [reflexivity |].
  pose proof (usbd_ep_io_result d (counting_driver 8 (-1) true no_events) 0%nat
                0x01 0x20000100 64 eq_refl) as (Hr & _).
  pose proof (usbd_ep_io_result d (counting_driver 8 (-1) true no_events) 0%nat
                0x81 0x20000100 8 eq_refl) as (_ & Hw & _).
  split; [exact Hr | exact Hw].
Defined.

(** ** Registration of the control, configuration and descriptor callbacks *)

(** X2: [usbd_reg_control], [usbd_reg_config] and [usbd_reg_descr] each
    assign one callback slot and nothing else, so they can be called in any
    order, and a second registration in a slot replaces the first. *)
Theorem usbd_reg_callbacks_compose {World : Type} (d : usbd_device World)
    (ctl ctl' : usbd_ctl_callback) (cfg cfg' : usbd_cfg_callback)
    (dsc dsc' : usbd_dsc_callback) :
  (control_callback (usbd_reg_control d ctl) = ctl /\
   config_callback (usbd_reg_config d cfg) = cfg /\
   descriptor_callback (usbd_reg_descr d dsc) = dsc) /\
  (usbd_reg_control (usbd_reg_control d ctl) ctl' = usbd_reg_control d ctl' /\
   usbd_reg_config (usbd_reg_config d cfg) cfg' = usbd_reg_config d cfg' /\
   usbd_reg_descr (usbd_reg_descr d dsc) dsc' = usbd_reg_descr d dsc') /\
  (usbd_reg_config (usbd_reg_control d ctl) cfg = usbd_reg_control (usbd_reg_config d cfg) ctl /\
   usbd_reg_descr (usbd_reg_control d ctl) dsc = usbd_reg_control (usbd_reg_descr d dsc) ctl /\
   usbd_reg_descr (usbd_reg_config d cfg) dsc = usbd_reg_config (usbd_reg_descr d dsc) cfg) /\
  (forall d', d' = usbd_reg_control d ctl \/ d' = usbd_reg_config d cfg \/
              d' = usbd_reg_descr d dsc ->
     driver d' = driver d /\ complete_callback d' = complete_callback d /\
     events d' = events d /\ endpoint d' = endpoint d /\ status d' = status d).
Proof.
  repeat split; destruct H as [-> | [-> | ->]]; reflexivity.
Qed.

(** ** The callback tables *)

Lemma wf_set_endpoint {World : Type} (d : usbd_device World) (i : nat)
    (cb : usbd_evt_callback) :
  wf_device d -> wf_device (set_endpoint d (<[i := cb]> (endpoint d))).
Proof. intros [He Hp]. split; simpl; [exact He | rewrite length_insert; exact Hp]. Qed.

Lemma wf_set_events {World : Type} (d : usbd_device World) (i : nat)
    (cb : usbd_evt_callback) :
  wf_device d -> wf_device (set_events d (<[i := cb]> (events d))).
Proof. intros [He Hp]. split; simpl; [rewrite length_insert; exact He | exact Hp]. Qed.

Lemma usbd_reg_endpoint_defined {World : Type} (d : usbd_device World) (ep : Z)
    (cb : usbd_evt_callback) :
  wf_device d ->
  usbd_reg_endpoint d ep cb
  = Some (set_endpoint d (<[Z.to_nat (ep mod 8) := cb]> (endpoint d))).
Proof.
  intros [_ Hp]. unfold usbd_reg_endpoint. rewrite land_7_mod.
  assert (0 <= ep mod 8 < 8) by (apply Z.mod_pos_bound; lia).
  rewrite array_store_in_range by lia. reflexivity.
Qed.

Lemma usbd_reg_event_defined {World : Type} (d : usbd_device World) (evt : Z)
    (cb : usbd_evt_callback) :
  wf_device d -> 0 <= evt < usbd_evt_count ->
  usbd_reg_event d evt cb = Some (set_events d (<[Z.to_nat evt := cb]> (events d))).
Proof.
  intros [He _] Hr. unfold usbd_reg_event.
  rewrite array_store_in_range by lia. reflexivity.
Qed.

(** X3: two endpoint registrations in a row.  When both addresses have the
    same index (as 0x01 and 0x81 do) the second callback replaces the first:
    the result is that of the second registration alone.  When the indices
    differ the order does not matter and both callbacks are in the table. *)
Theorem usbd_reg_endpoint_compose {World : Type} (d : usbd_device World)
    (ep1 ep2 : Z) (cb1 cb2 : usbd_evt_callback) :
  wf_device d ->
  (ep1 mod 8 = ep2 mod 8 ->
     usbd_reg_endpoint d ep1 cb1 ≫= (fun d1 => usbd_reg_endpoint d1 ep2 cb2)
     = usbd_reg_endpoint d ep2 cb2) /\
  (ep1 mod 8 <> ep2 mod 8 ->
     exists d2,
       usbd_reg_endpoint d ep1 cb1 ≫= (fun d1 => usbd_reg_endpoint d1 ep2 cb2) = Some d2 /\
       usbd_reg_endpoint d ep2 cb2 ≫= (fun d1 => usbd_reg_endpoint d1 ep1 cb1) = Some d2 /\
       endpoint d2 !! Z.to_nat (ep1 mod 8) = Some cb1 /\
       endpoint d2 !! Z.to_nat (ep2 mod 8) = Some cb2).
Proof.
  intros Hwf.
  assert (H1 : 0 <= ep1 mod 8 < 8) by (apply Z.mod_pos_bound; lia).
  assert (H2 : 0 <= ep2 mod 8 < 8) by (apply Z.mod_pos_bound; lia).
  pose proof Hwf as [_ Hlen].
  rewrite (usbd_reg_endpoint_defined d ep1 cb1 Hwf), (usbd_reg_endpoint_defined d ep2 cb2 Hwf).
  simpl. rewrite !usbd_reg_endpoint_defined by (apply wf_set_endpoint; exact Hwf).
  unfold set_endpoint; simpl. split.
  - intros Heq. rewrite Heq, list_insert_insert_eq. reflexivity.
  - intros Hne. eexists. split; [reflexivity |].
    assert (Hn : Z.to_nat (ep1 mod 8) <> Z.to_nat (ep2 mod 8)) by lia.
    split; [rewrite (list_insert_insert_ne _ _ _ cb2 cb1) by (symmetry; exact Hn); reflexivity |].
    simpl. split.
    + rewrite list_lookup_insert_ne by congruence.
      apply list_lookup_insert_eq. lia.
    + apply list_lookup_insert_eq. rewrite length_insert. lia.
Qed.

Lemma usbd_reg_endpoint_compose_witness :
  wf_device zero_device /\
  0x01 mod 8 = 0x81 mod 8 /\
  usbd_reg_endpoint zero_device 0x01 0x08000400
    ≫= (fun d1 => usbd_reg_endpoint d1 0x81 0x08000800)
  = Some (set_endpoint zero_device [NULL; 0x08000800; NULL; NULL; NULL; NULL; NULL; NULL]).
Proof.
  assert (Hwf : wf_device zero_device) by (split; reflexivity).
  split; [exact Hwf |]. split; [reflexivity |].
  destruct (usbd_reg_endpoint_compose zero_device 0x01 0x81 0x08000400 0x08000800 Hwf)
    as (Hsame & _).
  rewrite (Hsame eq_refl). reflexivity.
Defined.

(** X4: [usbd_reg_event] for an event below [usbd_evt_count] puts the
    callback in the slot of that event, leaves every other slot of the event
    table and every other field of the device as they were, and keeps the
    tables at their declared sizes. *)
Theorem usbd_reg_event_slot {World : Type} (d : usbd_device World) (evt : Z)
    (cb : usbd_evt_callback) :
  wf_device d -> 0 <= evt < usbd_evt_count ->
  let d' := set_events d (<[Z.to_nat evt := cb]> (events d)) in
  usbd_reg_event d evt cb = Some d' /\
  events d' !! Z.to_nat evt = Some cb /\
  (forall j : nat, j <> Z.to_nat evt -> events d' !! j = events d !! j) /\
  endpoint d' = endpoint d /\ driver d' = driver d /\ status d' = status d /\
  control_callback d' = control_callback d /\
  complete_callback d' = complete_callback d /\
  config_callback d' = config_callback d /\
  descriptor_callback d' = descriptor_callback d /\
  wf_device d'.
Proof.
  intros Hwf Hr d'. pose proof Hwf as [He _].
  rewrite usbd_reg_event_defined by assumption.
  split; [reflexivity |]. simpl. split.
  { apply list_lookup_insert_eq. lia. }
  split.
  { intros j Hj. apply list_lookup_insert_ne. congruence. }
  repeat split; try reflexivity; destruct Hwf as [? ?]; simpl; try assumption.
  rewrite length_insert. assumption.
Qed.

Lemma usbd_reg_event_slot_witness :
  wf_device zero_device /\ 0 <= usbd_evt_susp < usbd_evt_count /\
  usbd_reg_event zero_device usbd_evt_susp 0x08000400
  = Some (set_events zero_device
            [NULL; NULL; 0x08000400; NULL; NULL; NULL; NULL; NULL; NULL]).
Proof.
  assert (Hwf : wf_device zero_device) by (split; reflexivity).
  assert (Hr : 0 <= usbd_evt_susp < usbd_evt_count)
    by (unfold usbd_evt_susp, usbd_evt_count; lia).
  split; [exact Hwf |]. split; [exact Hr |].
  apply (usbd_reg_event_slot zero_device usbd_evt_susp 0x08000400 Hwf Hr).
Defined.

(** X5: registrations of two different events below [usbd_evt_count] can be
    made in either order and both callbacks are in the table afterwards (no
    two events share a slot); a second registration of the same event
    replaces the first; and an event registration and an endpoint
    registration can be made in either order. *)
Theorem usbd_reg_event_compose {World : Type} (d : usbd_device World)
    (e1 e2 ep : Z) (cb1 cb2 cb : usbd_evt_callback) :
  wf_device d ->
  0 <= e1 < usbd_evt_count -> 0 <= e2 < usbd_evt_count ->
  (e1 <> e2 ->
     exists d2,
       usbd_reg_event d e1 cb1 ≫= (fun d1 => usbd_reg_event d1 e2 cb2) = Some d2 /\
       usbd_reg_event d e2 cb2 ≫= (fun d1 => usbd_reg_event d1 e1 cb1) = Some d2 /\
       events d2 !! Z.to_nat e1 = Some cb1 /\
       events d2 !! Z.to_nat e2 = Some cb2) /\
  usbd_reg_event d e1 cb1 ≫= (fun d1 => usbd_reg_event d1 e1 cb2)
  = usbd_reg_event d e1 cb2 /\
  usbd_reg_event d e1 cb1 ≫= (fun d1 => usbd_reg_endpoint d1 ep cb)
  = usbd_reg_endpoint d ep cb ≫= (fun d1 => usbd_reg_event d1 e1 cb1).
Proof.
  intros Hwf H1 H2. pose proof Hwf as [Hlen _].
  rewrite (usbd_reg_event_defined d e1 cb1 Hwf H1), (usbd_reg_event_defined d e2 cb2 Hwf H2),
    (usbd_reg_endpoint_defined d ep cb Hwf).
  simpl.
  rewrite !usbd_reg_event_defined by (try apply wf_set_events; try apply wf_set_endpoint; assumption).
  rewrite usbd_reg_endpoint_defined by (apply wf_set_events; exact Hwf).
  unfold set_events, set_endpoint; simpl. split; [| split].
  - intros Hne. eexists. split; [reflexivity |].
    assert (Hn : Z.to_nat e1 <> Z.to_nat e2) by lia.
    split; [rewrite (list_insert_insert_ne _ _ _ cb2 cb1) by (symmetry; exact Hn); reflexivity |].
    simpl. split.
    + rewrite list_lookup_insert_ne by congruence.
      apply list_lookup_insert_eq. lia.
    + apply list_lookup_insert_eq. rewrite length_insert. lia.
  - rewrite list_insert_insert_eq. reflexivity.
  - reflexivity.
Qed.

Lemma usbd_reg_event_compose_witness :
  wf_device zero_device /\
  0 <= usbd_evt_reset < usbd_evt_count /\ 0 <= usbd_evt_esof < usbd_evt_count /\
  usbd_evt_reset <> usbd_evt_esof /\
  exists d2,
    usbd_reg_event zero_device usbd_evt_reset 0x08000400
      ≫= (fun d1 => usbd_reg_event d1 usbd_evt_esof 0x08000800) = Some d2 /\
    usbd_reg_event zero_device usbd_evt_esof 0x08000800
      ≫= (fun d1 => usbd_reg_event d1 usbd_evt_reset 0x08000400) = Some d2 /\
    events d2 !! Z.to_nat usbd_evt_reset = Some 0x08000400 /\
    events d2 !! Z.to_nat usbd_evt_esof = Some 0x08000800.
Proof.
  assert (Hwf : wf_device zero_device) by (split; reflexivity).
  assert (H1 : 0 <= usbd_evt_reset < usbd_evt_count)
    by (unfold usbd_evt_reset, usbd_evt_count; lia).
  assert (H2 : 0 <= usbd_evt_esof < usbd_evt_count)
    by (unfold usbd_evt_esof, usbd_evt_count; lia).
  assert (Hne : usbd_evt_reset <> usbd_evt_esof) by discriminate.
  split; [exact Hwf |]. split; [exact H1 |]. split; [exact H2 |]. split; [exact Hne |].
  exact (proj1 (usbd_reg_event_compose zero_device usbd_evt_reset usbd_evt_esof 0x01
                  0x08000400 0x08000800 NULL Hwf H1 H2) Hne).
Defined.

(** ** The fields of [bmRequestType] *)

(** X7: a request type composed with [|] from a direction, one of the three
    named types and a recipient gives each of them back under its mask. *)
Theorem bmRequestType_roundtrip (dir type recipient : Z) :
  In dir [USB_REQ_HOSTTODEV; USB_REQ_DEVTOHOST] ->
  In type [USB_REQ_STANDARD; USB_REQ_CLASS; USB_REQ_VENDOR] ->
  In recipient [USB_REQ_DEVICE; USB_REQ_INTERFACE; USB_REQ_ENDPOINT; USB_REQ_OTHER] ->
  Z.land (Z.lor (Z.lor dir type) recipient) USB_REQ_DIRECTION = dir /\
  Z.land (Z.lor (Z.lor dir type) recipient) USB_REQ_TYPE = type /\
  Z.land (Z.lor (Z.lor dir type) recipient) USB_REQ_RECIPIENT = recipient /\
  is_uint8 (Z.lor (Z.lor dir type) recipient).
Proof.
  simpl. intros Hd Ht Hr.
  destruct Hd as [<- | [<- | []]];
    destruct Ht as [<- | [<- | [<- | []]]];
    destruct Hr as [<- | [<- | [<- | [<- | []]]]];
    repeat split; discriminate.
Qed.

Lemma bmRequestType_roundtrip_witness :
  In USB_REQ_DEVTOHOST [USB_REQ_HOSTTODEV; USB_REQ_DEVTOHOST] /\
  In USB_REQ_CLASS [USB_REQ_STANDARD; USB_REQ_CLASS; USB_REQ_VENDOR] /\
  In USB_REQ_INTERFACE [USB_REQ_DEVICE; USB_REQ_INTERFACE; USB_REQ_ENDPOINT; USB_REQ_OTHER] /\
  Z.lor (Z.lor USB_REQ_DEVTOHOST USB_REQ_CLASS) USB_REQ_INTERFACE = 0xA1 /\
  Z.land 0xA1 USB_REQ_TYPE = USB_REQ_CLASS.
Proof.
  assert (Hd : In USB_REQ_DEVTOHOST [USB_REQ_HOSTTODEV; USB_REQ_DEVTOHOST])
    by (right; left; reflexivity).
  assert (Ht : In USB_REQ_CLASS [USB_REQ_STANDARD; USB_REQ_CLASS; USB_REQ_VENDOR])
    by (right; left; reflexivity).
  assert (Hr : In USB_REQ_INTERFACE
                 [USB_REQ_DEVICE; USB_REQ_INTERFACE; USB_REQ_ENDPOINT; USB_REQ_OTHER])
    by (right; left; reflexivity).
  split; [exact Hd |]. split; [exact Ht |]. split; [exact Hr |]. split; [reflexivity |].
  apply (bmRequestType_roundtrip USB_REQ_DEVTOHOST USB_REQ_CLASS USB_REQ_INTERFACE Hd Ht Hr).
Defined.

Lemma uint8_cases (P : Z -> bool) :
  forallb P (map Z.of_nat (seq 0 256)) = true ->
  forall b, is_uint8 b -> P b = true.
Proof.
  intros H b [Hlo Hhi]. change (2 ^ 8) with 256 in Hhi.
  rewrite forallb_forall in H. apply H.
  apply in_map_iff. exists (Z.to_nat b). split; [lia |].
  apply in_seq. lia.
Qed.

(** X8: every request type byte splits under the three masks: its direction
    is host-to-device or device-to-host, its recipient is one of the four
    named recipients, its type is one of the three named types or the fourth
    value 0x60, for which the header has no name, and the byte is the sum of
    the three fields and of its bits 2 to 4, which no mask covers. *)
Theorem bmRequestType_split (b : Z) :
  is_uint8 b ->
  (Z.land b USB_REQ_DIRECTION = USB_REQ_HOSTTODEV \/
   Z.land b USB_REQ_DIRECTION = USB_REQ_DEVTOHOST) /\
  (Z.land b USB_REQ_TYPE = USB_REQ_STANDARD \/ Z.land b USB_REQ_TYPE = USB_REQ_CLASS \/
   Z.land b USB_REQ_TYPE = USB_REQ_VENDOR \/ Z.land b USB_REQ_TYPE = 0x60) /\
  (Z.land b USB_REQ_RECIPIENT = USB_REQ_DEVICE \/
   Z.land b USB_REQ_RECIPIENT = USB_REQ_INTERFACE \/
   Z.land b USB_REQ_RECIPIENT = USB_REQ_ENDPOINT \/
   Z.land b USB_REQ_RECIPIENT = USB_REQ_OTHER) /\
  b = Z.land b USB_REQ_DIRECTION + Z.land b USB_REQ_TYPE
      + Z.land b USB_REQ_RECIPIENT + Z.land b 0x1C.
Proof.
  intros Hb.
  assert (Hall : forallb request_type_splits (map Z.of_nat (seq 0 256)) = true)
    by (vm_compute; reflexivity).
  pose proof (uint8_cases request_type_splits Hall b Hb) as H.
  unfold request_type_splits in H.
  repeat rewrite andb_true_iff in H. repeat rewrite orb_true_iff in H.
  repeat rewrite Z.eqb_eq in H.
  destruct H as (((Hd & Ht) & Hr) & Hs).
  split; [exact Hd |]. split; [| split; [| exact Hs]].
  - destruct Ht as [[[Ht | Ht] | Ht] | Ht]; auto.
  - destruct Hr as [[[Hr | Hr] | Hr] | Hr]; auto.
Qed.

Lemma bmRequestType_split_witness :
  is_uint8 0xFF /\
  Z.land 0xFF USB_REQ_TYPE = 0x60 /\
  0xFF = Z.land 0xFF USB_REQ_DIRECTION + Z.land 0xFF USB_REQ_TYPE
         + Z.land 0xFF USB_REQ_RECIPIENT + Z.land 0xFF 0x1C.
Proof.
  assert (Hb : is_uint8 0xFF) by (unfold is_uint8; lia).
  split; [exact Hb |]. split; [reflexivity |].
  apply (bmRequestType_split 0xFF Hb).
Defined.

(** ** The events and their table *)

(** X9: the nine event codes of the header are pairwise different and are
    exactly the indices below [usbd_evt_count], so the event table has one
    slot for each event and no other; on a device whose tables have their
    declared sizes, a callback can be registered for each of them. *)
Theorem usbd_events_slots {World : Type} (d : usbd_device World)
    (cb : usbd_evt_callback) :
  wf_device d ->
  NoDup usbd_events /\
  Z.of_nat (length usbd_events) = usbd_evt_count /\
  (forall e, In e usbd_events <-> 0 <= e < usbd_evt_count) /\
  (forall e, In e usbd_events ->
     exists d', usbd_reg_event d e cb = Some d' /\ events d' !! Z.to_nat e = Some cb).
Proof.
  intros Hwf.
  assert (Hin : forall e, In e usbd_events <-> 0 <= e < usbd_evt_count).
  { intros e. unfold usbd_events, usbd_evt_count, usbd_evt_reset, usbd_evt_sof,
      usbd_evt_susp, usbd_evt_wkup, usbd_evt_eptx, usbd_evt_eprx, usbd_evt_epsetup,
      usbd_evt_error, usbd_evt_esof. simpl. lia. }
  split; [| split; [reflexivity | split; [exact Hin |]]].
  - compute_done.
  - intros e He. apply Hin in He. pose proof Hwf as [Hlen _].
    rewrite usbd_reg_event_defined by assumption.
    eexists. split; [reflexivity |]. simpl. apply list_lookup_insert_eq. lia.
Qed.

Lemma usbd_events_slots_witness :
  wf_device zero_device /\
  In usbd_evt_error usbd_events /\
  exists d', usbd_reg_event zero_device usbd_evt_error 0x08000400 = Some d' /\
             events d' !! Z.to_nat usbd_evt_error = Some 0x08000400.
Proof.
  assert (Hwf : wf_device zero_device) by (split; reflexivity).
  assert (Hin : In usbd_evt_error usbd_events) by (do 7 right; left; reflexivity).
  split; [exact Hwf |]. split; [exact Hin |].
  destruct (usbd_events_slots zero_device 0x08000400 Hwf) as (_ & _ & _ & Hreg).
  exact (Hreg usbd_evt_error Hin).
Defined.

(** ** Initialisation and registration *)

(** X10: [usbd_init] and the registration functions assign different fields:
    they can be called in either order, registrations made before the
    initialisation are kept, and a second initialisation replaces everything
    the first one assigned. *)
Theorem usbd_init_composes {World : Type} (d : usbd_device World)
    (drv drv' : option (usbd_driver World)) (ep0 buffer bsize ep0' buffer' bsize' : Z)
    (ctl : usbd_ctl_callback) (cfg : usbd_cfg_callback) (dsc : usbd_dsc_callback)
    (n : Z) (cb : usbd_evt_callback) :
  usbd_init (usbd_init d drv' ep0' buffer' bsize') drv ep0 buffer bsize
  = usbd_init d drv ep0 buffer bsize /\
  usbd_init (usbd_reg_control d ctl) drv ep0 buffer bsize
  = usbd_reg_control (usbd_init d drv ep0 buffer bsize) ctl /\
  usbd_init (usbd_reg_config d cfg) drv ep0 buffer bsize
  = usbd_reg_config (usbd_init d drv ep0 buffer bsize) cfg /\
  usbd_init (usbd_reg_descr d dsc) drv ep0 buffer bsize
  = usbd_reg_descr (usbd_init d drv ep0 buffer bsize) dsc /\
  usbd_reg_endpoint (usbd_init d drv ep0 buffer bsize) n cb
  = (fun d1 => usbd_init d1 drv ep0 buffer bsize) <$> usbd_reg_endpoint d n cb /\
  usbd_reg_event (usbd_init d drv ep0 buffer bsize) n cb
  = (fun d1 => usbd_init d1 drv ep0 buffer bsize) <$> usbd_reg_event d n cb.
Proof.
  do 4 (split; [reflexivity |]).
  unfold usbd_reg_endpoint, usbd_reg_event. simpl. split.
  - destruct (array_store (endpoint d) (Z.land n 7) cb); reflexivity.
  - destruct (array_store (events d) n cb); reflexivity.
Qed.
